(** * GitHub-to-Jira synchronisation: field classifier and ADF builder

    A shallow embedding of [map-issue-type.js], [adf-utils.js] and the
    description handling of [create.js], together with the properties the
    specification states about them.

    JavaScript strings are modelled as [string], read as sequences of
    Latin-1 code points (U+0000 to U+00FF).  That range is closed under
    [String.prototype.toLowerCase], and the host functions used by the
    sources ([toLowerCase], [trim], [includes], [split], the regular
    expression of the component scan) are given their ECMAScript meaning on
    it. *)

From Stdlib Require Import Ascii String List ZArith NArith Bool Lia.
From stdpp Require Import base strings gmap list.

Import ListNotations.
Local Open Scope bool_scope.
Local Set Warnings "-register-all".
#[local] Arguments String.append !s1 s2 : simpl nomatch.

(** ** Host string functions *)

Module JsString.

Definition code (c : ascii) : N := N_of_ascii c.

(** ECMAScript LineTerminator: LF, CR (U+2028 and U+2029 lie outside
    Latin-1). *)
Definition isLineTerminator (c : ascii) : bool :=
  (code c =? 10)%N || (code c =? 13)%N.

(** ECMAScript WhiteSpace and LineTerminator, the set removed by [trim]
    and matched by [\s]: TAB, LF, VT, FF, CR, SP, NBSP. *)
Definition isWhiteSpace (c : ascii) : bool :=
  ((9 <=? code c)%N && (code c <=? 13)%N)
  || (code c =? 32)%N || (code c =? 160)%N.

(** [toLowerCase] on one code point: A-Z, and the Latin-1 capitals
    U+00C0..U+00DE except the multiplication sign U+00D7. *)
Definition toLowerChar (c : ascii) : ascii :=
  let n := code c in
  if ((65 <=? n)%N && (n <=? 90)%N)
     || ((192 <=? n)%N && (n <=? 222)%N && negb (n =? 215)%N)
  then ascii_of_N (n + 32) else c.

Fixpoint toLowerCase (s : string) : string :=
  match s with
  | EmptyString => EmptyString
  | String c s' => String (toLowerChar c) (toLowerCase s')
  end.

Fixpoint startsWith (s pat : string) {struct pat} : bool :=
  match pat, s with
  | EmptyString, _ => true
  | String _ _, EmptyString => false
  | String p pat', String c s' => Ascii.eqb c p && startsWith s' pat'
  end.

(** [s.includes(pat)] *)
Fixpoint includes (s pat : string) : bool :=
  startsWith s pat
  || match s with
     | EmptyString => false
     | String _ s' => includes s' pat
     end.

Fixpoint trimStart (s : string) : string :=
  match s with
  | EmptyString => EmptyString
  | String c s' => if isWhiteSpace c then trimStart s' else s
  end.

Fixpoint trimEnd (s : string) : string :=
  match s with
  | EmptyString => EmptyString
  | String c s' =>
      match trimEnd s' with
      | EmptyString => if isWhiteSpace c then EmptyString
                       else String c EmptyString
      | r => String c r
      end
  end.

(** [s.trim()] *)
Definition trim (s : string) : string := trimEnd (trimStart s).

(** Splitting at every character selected by [sep]; the separators are
    dropped and empty pieces are kept, as [String.prototype.split] does
    for a one-character separator. *)
Fixpoint splitOn (sep : ascii -> bool) (s : string) : list string :=
  match s with
  | EmptyString => [EmptyString]
  | String c s' =>
      if sep c then EmptyString :: splitOn sep s'
      else match splitOn sep s' with
           | [] => [String c EmptyString]
           | piece :: pieces => String c piece :: pieces
           end
  end.

Definition isLF (c : ascii) : bool := (code c =? 10)%N.

(** [s.split("\n")] *)
Definition splitLF (s : string) : list string := splitOn isLF s.

(** [parts.join(sep)] *)
Fixpoint join (sep : string) (parts : list string) : string :=
  match parts with
  | [] => EmptyString
  | [p] => p
  | p :: rest => p +:+ sep +:+ join sep rest
  end.

(** A JavaScript string is falsy exactly when it is empty. *)
Definition nonEmpty (s : string) : bool :=
  match s with EmptyString => false | String _ _ => true end.

Definition allWhiteSpace (s : string) : bool :=
  forallb isWhiteSpace (list_ascii_of_string s).

End JsString.

(** ** Host regular expressions

    The fragment of ECMAScript regular expressions that the component scan
    builds, run by a backtracking matcher under the flags [m] (multi-line
    anchors) and [i] (case-insensitive comparison). *)

Module JsRegExp.
Import JsString.

Inductive regex :=
| Bol                       (* ^ *)
| Eol                       (* $ *)
| Chr (c : ascii)           (* a pattern character *)
| WsStar                    (* \s* *)
| Seq (r1 r2 : regex).

(** Canonicalize of a non-Unicode case-insensitive match: the upper-case
    form when it is a single code unit.  U+00DF upper-cases to two code
    units and is kept; U+00B5 and U+00FF upper-case to code points beyond
    Latin-1 which no other Latin-1 character reaches, so keeping them
    leaves the comparison of two Latin-1 characters unchanged. *)
Definition canonicalize (c : ascii) : ascii :=
  let n := code c in
  if ((97 <=? n)%N && (n <=? 122)%N)
     || ((224 <=? n)%N && (n <=? 254)%N && negb (n =? 247)%N)
  then ascii_of_N (n - 32) else c.

(** A position in the input: the character before it, if any, and the
    characters from it on. *)
Definition atLineStart (prev : option ascii) : bool :=
  match prev with
  | None => true
  | Some c => isLineTerminator c
  end.

Definition atLineEnd (rest : string) : bool :=
  match rest with
  | EmptyString => true
  | String c _ => isLineTerminator c
  end.

Definition cont := option ascii -> string -> bool.

(** Greedy [\s*]: the longer match is tried first, then the shorter. *)
Fixpoint wsStar (prev : option ascii) (s : string) (k : cont) : bool :=
  match s with
  | EmptyString => k prev s
  | String c s' =>
      if isWhiteSpace c then wsStar (Some c) s' k || k prev s
      else k prev s
  end.

Fixpoint run (r : regex) (prev : option ascii) (s : string) (k : cont)
  : bool :=
  match r with
  | Bol => atLineStart prev && k prev s
  | Eol => atLineEnd s && k prev s
  | Chr p =>
      match s with
      | EmptyString => false
      | String c s' =>
          Ascii.eqb (canonicalize c) (canonicalize p) && k (Some c) s'
      end
  | WsStar => wsStar prev s k
  | Seq r1 r2 => run r1 prev s (fun prev' s' => run r2 prev' s' k)
  end.

(** A match is attempted at every start position, left to right. *)
Fixpoint testFrom (r : regex) (prev : option ascii) (s : string) : bool :=
  run r prev s (fun _ _ => true)
  || match s with
     | EmptyString => false
     | String c s' => testFrom r (Some c) s'
     end.

(** [r.test(s)] *)
Definition test (r : regex) (s : string) : bool := testFrom r None s.

(** The pattern characters of [text], followed by [tail]. *)
Fixpoint literal (text : string) (tail : regex) : regex :=
  match text with
  | EmptyString => tail
  | String c text' => Seq (Chr c) (literal text' tail)
  end.

End JsRegExp.

(** ** JavaScript values

    The values the document builder receives and returns: primitives,
    arrays and plain objects, an object being its own properties in
    insertion order, under pairwise distinct keys.  Numbers are the
    integer-valued ones; a BigInt is a primitive of its own. *)

Module JsValue.
Import JsString.

Inductive value :=
| VUndefined
| VNull
| VBool (b : bool)
| VNum (n : Z)
| VStr (s : string)
| VArr (elems : list value)
| VObj (props : list (string * value))
| VBigInt (n : Z).

Definition truthy (v : value) : bool :=
  match v with
  | VUndefined | VNull => false
  | VBool b => b
  | VNum n => negb (n =? 0)%Z
  | VStr s => nonEmpty s
  | VArr _ | VObj _ => true
  | VBigInt n => negb (n =? 0)%Z
  end.

Definition typeof (v : value) : string :=
  match v with
  | VUndefined => "undefined"
  | VNull => "object"
  | VBool _ => "boolean"
  | VNum _ => "number"
  | VStr _ => "string"
  | VArr _ | VObj _ => "object"
  | VBigInt _ => "bigint"
  end.

(** [Array.isArray(v)] *)
Definition isArray (v : value) : bool :=
  match v with
  | VArr _ => true
  | _ => false
  end.

(** [v == null] *)
Definition isNullish (v : value) : bool :=
  match v with
  | VUndefined | VNull => true
  | _ => false
  end.

Fixpoint lookupProp (props : list (string * value)) (key : string)
  : value :=
  match props with
  | [] => VUndefined
  | (k, v) :: rest => if String.eqb k key then v else lookupProp rest key
  end.

(** [v.key] for a [v] that is neither [undefined] nor [null], and a [key]
    that names no built-in member. *)
Definition member (v : value) (key : string) : value :=
  match v with
  | VObj props => lookupProp props key
  | _ => VUndefined
  end.

(** [a === b] where [b] is a primitive: objects and arrays are compared by
    identity and so differ from every primitive. *)
Definition strictEq (a b : value) : bool :=
  match a, b with
  | VUndefined, VUndefined => true
  | VNull, VNull => true
  | VBool x, VBool y => Bool.eqb x y
  | VNum x, VNum y => (x =? y)%Z
  | VStr x, VStr y => String.eqb x y
  | VBigInt x, VBigInt y => (x =? y)%Z
  | _, _ => false
  end.

(** The string held by a value whose [typeof] is ["string"]. *)
Definition asString (v : value) : string :=
  match v with
  | VStr s => s
  | _ => EmptyString
  end.

(** The elements of a value for which [Array.isArray] holds. *)
Definition elements (v : value) : list value :=
  match v with
  | VArr elems => elems
  | _ => []
  end.

(** A BigInt occurs in the value.  [JSON.stringify] visits every element
    and every property value, and throws a [TypeError] when it meets a
    BigInt. *)
Fixpoint hasBigInt (v : value) : bool :=
  match v with
  | VBigInt _ => true
  | VArr elems => existsb hasBigInt elems
  | VObj props =>
      existsb (fun kv => match kv with (_, x) => hasBigInt x end) props
  | _ => false
  end.

(** [array.push(x)] *)
Definition push {A : Type} (array : list A) (x : A) : list A :=
  array ++ [x].

(** The outcome of a call: a value, or a thrown [TypeError]. *)
Inductive completion (A : Type) :=
| Normal (a : A)
| ThrowTypeError.
Arguments Normal {A} a.
Arguments ThrowTypeError {A}.

Definition bind {A B : Type} (c : completion A) (f : A -> completion B)
  : completion B :=
  match c with
  | Normal a => f a
  | ThrowTypeError => ThrowTypeError
  end.

(** [array.map(f)] for a callback that may throw. *)
Fixpoint mapArray {A B : Type} (f : A -> completion B) (array : list A)
  : completion (list B) :=
  match array with
  | [] => Normal []
  | x :: rest =>
      bind (f x) (fun y =>
      bind (mapArray f rest) (fun ys => Normal (y :: ys)))
  end.



End JsValue.

(** ** map-issue-type.js *)

Module MapIssueType.
Import JsString JsRegExp.
Import JsValue (push).

(** The parsed mapping configuration file. *)
Record MappingConfig := {
  mappings : gmap string string;
  defaultIssueType : string
}.

(** The outcome of [fs.readFileSync] followed by [JSON.parse]: the
    configuration, or the message of the error raised.  The file is one of
    the shape [{mappings: {label: issueType, ...}, defaultIssueType}], with
    strings as issue types. *)
Inductive ConfigRead :=
| ConfigLoaded (config : MappingConfig)
| ConfigError (message : string).

(** What a property read on the [mappings] object can give: the string
    stored under an own key, a member inherited from [Object.prototype],
    or [undefined]. *)
Inductive jsval :=
| JString (s : string)
| JInherited (member : string)
| JUndefined.

Definition isTruthy (v : jsval) : bool :=
  match v with
  | JString s => nonEmpty s
  | JInherited _ => true
  | JUndefined => false
  end.

Definition objectPrototypeMembers : list string :=
  [ "constructor"; "hasOwnProperty"; "isPrototypeOf";
    "propertyIsEnumerable"; "toLocaleString"; "toString"; "valueOf";
    "__defineGetter__"; "__defineSetter__"; "__lookupGetter__";
    "__lookupSetter__"; "__proto__" ].

(** [mappings[label]] *)
Definition getMapping (mappings : gmap string string) (label : string)
  : jsval :=
  match mappings !! label with
  | Some issueType => JString issueType
  | None =>
      if existsb (String.eqb label) objectPrototypeMembers
      then JInherited label else JUndefined
  end.

(** Lines written to the console. *)
Inductive Console :=
| LogDefault (defaultIssueType : string)   (* console.log(defaultIssueType) *)
| ErrorReadingConfig (message : string)    (* console.error(..., error.message) *)
| LogFallbackTask.                         (* console.log("Falling back ...") *)

(** The [for ... of] loop over the labels with its early [return]. *)
Fixpoint firstMapped (mappings : gmap string string)
  (githubLabels : list string) : option jsval :=
  match githubLabels with
  | [] => None
  | label :: rest =>
      if isTruthy (getMapping mappings label)
      then Some (getMapping mappings label)
      else firstMapped mappings rest
  end.

Definition mapGitHubLabelsToJiraIssueType (githubLabels : list string)
  (read : ConfigRead) : jsval * list Console :=
  match read with
  | ConfigLoaded config =>
      match firstMapped (mappings config) githubLabels with
      | Some issueType => (issueType, [])
      | None =>
          (JString (defaultIssueType config),
           [LogDefault (defaultIssueType config)])
      end
  | ConfigError message =>
      (JString "Task", [ErrorReadingConfig message; LogFallbackTask])
  end.

(** A label entry of a GitHub issue: a plain string, or an object with a
    [name] field. *)
Inductive LabelEntry :=
| LabelString (s : string)
| LabelObject (name : string).

(** The issue object read by the classifier; [None] stands for a field
    that is absent ([undefined]) or [null]. *)
Record GitHubIssue := {
  title : option string;
  body : option string;
  labels : option (list LabelEntry)
}.

(** [x || ""] *)
Definition orEmpty (x : option string) : string :=
  match x with
  | Some s => s
  | None => EmptyString
  end.

Definition mapPriority (issueData : GitHubIssue) : string :=
  let body := toLowerCase (orEmpty (body issueData)) in
  let title := toLowerCase (orEmpty (title issueData)) in
  if includes body "high - production system" || includes body "production down"
  then "Highest"
  else if includes body "medium - a non-critical feature"
  then "Medium"
  else if includes body "low - minor issue" || includes body "cosmetic"
  then "Low"
  else if includes title "urgent" || includes title "critical"
          || includes body "urgent"
  then "High"
  else "Medium".

Definition platformAreas : list string :=
  ["REELS"; "ALPHA"; "TRINITY"; "AI HUB"].

(** [new RegExp(`^\\s*${area}\\s*$`, "mi")]; the areas above hold letters
    and a space only, so each of their characters is a pattern
    character. *)
Definition areaRegex (area : string) : regex :=
  Seq Bol (Seq WsStar (literal area (Seq WsStar Eol))).

(** The [forEach] over the platform areas. *)
Definition extractComponents (body : string) : list string :=
  fold_left
    (fun components area =>
       if test (areaRegex area) body then push components area
       else components)
    platformAreas [].

Definition labelName (label : LabelEntry) : string :=
  match label with
  | LabelString s => s
  | LabelObject name => name
  end.

Module Fields.
Record t := {
  issueType : jsval;
  priority : string;
  components : list string;
  labels : list string;
  originalLabels : option (list LabelEntry)
}.
End Fields.

Definition mapGitHubIssueToJiraFields (githubIssue : GitHubIssue)
  (read : ConfigRead) : Fields.t * list Console :=
  let labels :=
    match labels githubIssue with
    | Some entries => map labelName entries
    | None => []
    end in
  let '(issueType, console) := mapGitHubLabelsToJiraIssueType labels read in
  let priority := mapPriority githubIssue in
  let body := orEmpty (body githubIssue) in
  let components := extractComponents body in
  ({| Fields.issueType := issueType;
      Fields.priority := priority;
      Fields.components := components;
      Fields.labels := labels;
      Fields.originalLabels := MapIssueType.labels githubIssue |},
   console).

(** The line written by [console.warn]. *)
Inductive Warning :=
| WarnIssueTypeMayNotExist (issueType : string)
                           (validIssueTypes : list string).

Definition validateJiraIssueType (issueType : string)
  (validIssueTypes : list string) : bool * list Warning :=
  if (length validIssueTypes =? 0)%nat then (true, [])
  else
    let isValid := existsb (String.eqb issueType) validIssueTypes in
    if negb isValid
    then (isValid, [WarnIssueTypeMayNotExist issueType validIssueTypes])
    else (isValid, []).

End MapIssueType.

(** ** adf-utils.js *)

Module AdfUtils.
Import JsString JsValue.

Definition textToADF (text : value) : value :=
  if negb (truthy text) || negb (String.eqb (typeof text) "string") then
    VObj [("type", VStr "doc"); ("version", VNum 1); ("content", VArr [])]
  else
    let paragraphs :=
      List.filter (fun line => negb (String.eqb (trim line) ""))
                  (splitLF (asString text)) in
    let content :=
      map (fun paragraph =>
             VObj [("type", VStr "paragraph");
                   ("content",
                    VArr [VObj [("type", VStr "text");
                                ("text", VStr (trim paragraph))]])])
          paragraphs in
    VObj [("type", VStr "doc"); ("version", VNum 1);
          ("content",
           VArr (if (0 <? length content)%nat then content
                 else [VObj [("type", VStr "paragraph");
                             ("content",
                              VArr [VObj [("type", VStr "text");
                                          ("text", text)]])]]))].

(** One element of [textNodes.map(...)]; reading [node.text] of
    [undefined] or [null] throws. *)
Definition formattedNode (node : value) : completion value :=
  if isNullish node then ThrowTypeError
  else
    Normal
      (VObj ([("type", VStr "text"); ("text", member node "text")]
             ++ (if truthy (member node "marks")
                 then [("marks", member node "marks")] else []))).

Definition createFormattedADF (textNodes : value) : completion value :=
  match textNodes with
  | VArr nodes =>
      bind (mapArray formattedNode nodes) (fun content =>
      Normal
        (VObj [("type", VStr "doc"); ("version", VNum 1);
               ("content",
                VArr [VObj [("type", VStr "paragraph");
                            ("content", VArr content)]])]))
  | _ => ThrowTypeError
  end.

Definition listItem (item : value) : value :=
  VObj [("type", VStr "listItem");
        ("content",
         VArr [VObj [("type", VStr "paragraph");
                     ("content",
                      VArr [VObj [("type", VStr "text");
                                  ("text", item)]])]])].

Definition createBulletListADF (items : value) : value :=
  if negb (isArray items) || (length (elements items) =? 0)%nat then
    textToADF (VStr "")
  else
    VObj [("type", VStr "doc"); ("version", VNum 1);
          ("content",
           VArr [VObj [("type", VStr "bulletList");
                       ("content",
                        VArr (map listItem (elements items)))]])].

Definition createOrderedListADF (items : value) : value :=
  if negb (isArray items) || (length (elements items) =? 0)%nat then
    textToADF (VStr "")
  else
    VObj [("type", VStr "doc"); ("version", VNum 1);
          ("content",
           VArr [VObj [("type", VStr "orderedList");
                       ("content",
                        VArr (map listItem (elements items)))]])].

(** [level] is an integer-valued number, or [None] when the argument is
    left out (the default 1 applies); a [content] left out defaults to the
    empty string.  A level that is NaN, for which [Math.max] and
    [Math.min] give NaN, and a level with a fraction are not among these
    numbers. *)
Definition createHeadingWithContentADF (headingText : value)
  (level : option Z) (content : value) : value :=
  let level := match level with Some n => n | None => 1%Z end in
  let content := match content with VUndefined => VStr "" | c => c end in
  let validLevel := Z.max 1 (Z.min 6 level) in
  let adfContent :=
    [VObj [("type", VStr "heading");
           ("attrs", VObj [("level", VNum validLevel)]);
           ("content",
            VArr [VObj [("type", VStr "text"); ("text", headingText)]])]] in
  let adfContent :=
    if truthy content then
      adfContent ++
      [VObj [("type", VStr "paragraph");
             ("content",
              VArr [VObj [("type", VStr "text"); ("text", content)]])]]
    else adfContent in
  VObj [("type", VStr "doc"); ("version", VNum 1);
        ("content", VArr adfContent)].

Definition createCodeBlockADF (code : value) (language : value) : value :=
  let language := match language with VUndefined => VStr "" | l => l end in
  VObj [("type", VStr "doc"); ("version", VNum 1);
        ("content",
         VArr [VObj [("type", VStr "codeBlock");
                     ("attrs",
                      if truthy language then VObj [("language", language)]
                      else VObj []);
                     ("content",
                      VArr [VObj [("type", VStr "text");
                                  ("text", code)]])]])].

Definition createLinkADF (text url : value) : value :=
  VObj [("type", VStr "doc"); ("version", VNum 1);
        ("content",
         VArr [VObj [("type", VStr "paragraph");
                     ("content",
                      VArr [VObj [("type", VStr "text");
                                  ("text", text);
                                  ("marks",
                                   VArr [VObj [("type", VStr "link");
                                               ("attrs",
                                                VObj [("href", url)])]])]])]])].

Definition combineADFContent (contentBlocks : value) : completion value :=
  match contentBlocks with
  | VArr blocks =>
      Normal
        (VObj [("type", VStr "doc"); ("version", VNum 1);
               ("content",
                VArr (List.filter (fun block => negb (isNullish block))
                                  blocks))])
  | _ => ThrowTypeError
  end.

(** The result is read as a condition: its truthiness is what is kept. *)
Definition isValidADF (adf : value) : bool :=
  truthy adf
  && String.eqb (typeof adf) "object"
  && strictEq (member adf "type") (VStr "doc")
  && strictEq (member adf "version") (VNum 1)
  && isArray (member adf "content").

End AdfUtils.

(** ** create.js *)

Module Create.
Import JsString JsValue AdfUtils.

Section Description.

(** [JSON.stringify] of the host, which returns a string for every
    object and array of this value model. *)
Variable JSON_stringify : value -> string.

(** The description handling at the head of [createIssue], for a
    description that [JSON.stringify] serialises; [createIssueDescription]
    below has the handling with the [TypeError] of [JSON.stringify]. *)
Definition adfDescription (description : value) : value :=
  if String.eqb (typeof description) "string" then
    textToADF description
  else if truthy description
          && String.eqb (typeof description) "object"
          && isValidADF description then
    description
  else if truthy description
          && String.eqb (typeof description) "object" then
    textToADF (VStr (JSON_stringify description))
  else
    textToADF (VStr "").

(** [JSON.stringify(v)]: the text of the host, or the [TypeError] for a
    value that holds a BigInt. *)
Definition stringifyOrThrow (v : value) : completion string :=
  if hasBigInt v then ThrowTypeError else Normal (JSON_stringify v).

(** The description handling at the head of [createIssue]; an error
    thrown in it is logged and thrown again by the [catch] block of
    [createIssue]. *)
Definition createIssueDescription (description : value)
  : completion value :=
  if String.eqb (typeof description) "string" then
    Normal (textToADF description)
  else if truthy description
          && String.eqb (typeof description) "object"
          && isValidADF description then
    Normal description
  else if truthy description
          && String.eqb (typeof description) "object" then
    bind (stringifyOrThrow description) (fun text =>
    Normal (textToADF (VStr text)))
  else
    Normal (textToADF (VStr "")).


End Description.

(** The [mappingInfo] argument; [None] stands for an absent field. *)
Module MappingInfo.
Record t := {
  labels : option (list string);
  issueType : option string;
  priority : option string
}.
(** The default argument [{}]. *)
Definition empty : t :=
  {| labels := None; issueType := None; priority := None |}.
End MappingInfo.

(** [if (field) content.push(paragraph(field))] for a string field that
    may be absent. *)
Definition pushIfPresent (content : list value) (field : option string)
  (paragraph : string -> value) : list value :=
  match field with
  | Some s => if nonEmpty s then push content (paragraph s) else content
  | None => content
  end.

(** [body && body.trim()] *)
Definition bodyPresent (body : option string) : bool :=
  match body with
  | Some b => nonEmpty b && nonEmpty (trim b)
  | None => false
  end.

Definition createGitHubIssueADF (githubUrl author createdAt : string)
  (body : option string) (mappingInfo : MappingInfo.t) : value :=
  let content :=
    [ VObj [("type", VStr "paragraph");
            ("content",
             VArr [VObj [("type", VStr "text");
                         ("text", VStr "Original GitHub Issue: ")];
                   VObj [("type", VStr "text");
                         ("text", VStr githubUrl);
                         ("marks",
                          VArr [VObj [("type", VStr "link");
                                      ("attrs",
                                       VObj [("href", VStr githubUrl)])]])]])];
      VObj [("type", VStr "paragraph");
            ("content",
             VArr [VObj [("type", VStr "text");
                         ("text", VStr ("Created by: " +:+ author))]])];
      VObj [("type", VStr "paragraph");
            ("content",
             VArr [VObj [("type", VStr "text");
                         ("text", VStr ("Created at: " +:+ createdAt))]])];
      VObj [("type", VStr "rule")] ] in
  let content :=
    match MappingInfo.labels mappingInfo with
    | Some labels =>
        if (0 <? length labels)%nat then
          push content
            (VObj [("type", VStr "paragraph");
                   ("content",
                    VArr [VObj [("type", VStr "text");
                                ("text",
                                 VStr ("GitHub Labels: "
                                       +:+ join ", " labels));
                                ("marks",
                                 VArr [VObj [("type", VStr "em")]])]])])
        else content
    | None => content
    end in
  let content :=
    pushIfPresent content (MappingInfo.issueType mappingInfo)
      (fun issueType =>
         VObj [("type", VStr "paragraph");
               ("content",
                VArr [VObj [("type", VStr "text");
                            ("text",
                             VStr ("Mapped to Issue Type: " +:+ issueType));
                            ("marks",
                             VArr [VObj [("type", VStr "em")]])]])]) in
  let content :=
    pushIfPresent content (MappingInfo.priority mappingInfo)
      (fun priority =>
         VObj [("type", VStr "paragraph");
               ("content",
                VArr [VObj [("type", VStr "text");
                            ("text", VStr ("Priority: " +:+ priority));
                            ("marks",
                             VArr [VObj [("type", VStr "em")]])]])]) in
  let content :=
    if bodyPresent body then push content (VObj [("type", VStr "rule")])
    else content in
  let content :=
    if bodyPresent body then
      let paragraphs :=
        List.filter (fun line => negb (String.eqb (trim line) ""))
                    (splitLF (match body with Some b => b | None => "" end)) in
      fold_left
        (fun content paragraph =>
           push content
             (VObj [("type", VStr "paragraph");
                    ("content",
                     VArr [VObj [("type", VStr "text");
                                 ("text", VStr (trim paragraph))]])]))
        paragraphs content
    else content in
  VObj [("type", VStr "doc"); ("version", VNum 1);
        ("content", VArr content)].



End Create.


(** ** create.js, the earlier revision

    The revision of [createGitHubIssueADF] without the [mappingInfo]
    argument. *)

Module CreateEarlier.
Import JsString JsValue AdfUtils.

Definition createGitHubIssueADF (githubUrl author createdAt : string)
  (body : option string) : value :=
  let content :=
    [ VObj [("type", VStr "paragraph");
            ("content",
             VArr [VObj [("type", VStr "text");
                         ("text", VStr "Original GitHub Issue: ")];
                   VObj [("type", VStr "text");
                         ("text", VStr githubUrl);
                         ("marks",
                          VArr [VObj [("type", VStr "link");
                                      ("attrs",
                                       VObj [("href", VStr githubUrl)])]])]])];
      VObj [("type", VStr "paragraph");
            ("content",
             VArr [VObj [("type", VStr "text");
                         ("text", VStr ("Created by: " +:+ author))]])];
      VObj [("type", VStr "paragraph");
            ("content",
             VArr [VObj [("type", VStr "text");
                         ("text", VStr ("Created at: " +:+ createdAt))]])];
      VObj [("type", VStr "rule")] ] in
  let content :=
    if Create.bodyPresent body then
      let paragraphs :=
        List.filter (fun line => negb (String.eqb (trim line) ""))
                    (splitLF (match body with Some b => b | None => "" end)) in
      fold_left
        (fun content paragraph =>
           push content
             (VObj [("type", VStr "paragraph");
                    ("content",
                     VArr [VObj [("type", VStr "text");
                                 ("text", VStr (trim paragraph))]])]))
        paragraphs content
    else content in
  VObj [("type", VStr "doc"); ("version", VNum 1);
        ("content", VArr content)].

End CreateEarlier.

(** ** The specification's notions

    Definitions that follow the words of the specification, against which
    the functions above are compared. *)

Module Spec.
Import JsString JsValue MapIssueType.

(** [pat] occurs in [s]. *)
Definition contains (s pat : string) : Prop :=
  exists pre post, s = pre +:+ pat +:+ post.

(** The five-rule priority cascade as the specification words it: rule 4
    looks for "urgent" and "critical" in the title and in the body. *)
Definition priorityCascade (issue : GitHubIssue) : string :=
  let body := toLowerCase (orEmpty (body issue)) in
  let title := toLowerCase (orEmpty (title issue)) in
  if includes body "high - production system" || includes body "production down"
  then "Highest"
  else if includes body "medium - a non-critical feature"
  then "Medium"
  else if includes body "low - minor issue" || includes body "cosmetic"
  then "Low"
  else if includes title "urgent" || includes title "critical"
          || includes body "urgent" || includes body "critical"
  then "High"
  else "Medium".

(** The issue type of the first label that is a key of [mappings], or the
    default when no label is a key. *)
Fixpoint issueTypeOfFirstKey (mappings : gmap string string)
  (default : string) (labels : list string) : string :=
  match labels with
  | [] => default
  | label :: rest =>
      match mappings !! label with
      | Some issueType => issueType
      | None => issueTypeOfFirstKey mappings default rest
      end
  end.

(** The lines of a text: the pieces between line terminators. *)
Definition lines (text : string) : list string :=
  splitOn isLineTerminator text.

(** [line] consists solely of [tag], up to surrounding white space and
    letter case. *)
Definition lineIsTag (tag line : string) : bool :=
  String.eqb (toLowerCase (trim line)) (toLowerCase tag).

(** The tags of the vocabulary, in its order, that some line of the body
    consists of. *)
Definition componentsOf (body : string) : list string :=
  List.filter (fun tag => existsb (lineIsTag tag) (lines body))
              platformAreas.

(** [s] has a character that is not white space. *)
Definition hasNonWhiteSpace (s : string) : bool :=
  existsb (fun c => negb (isWhiteSpace c)) (list_ascii_of_string s).

(** No leading and no trailing white space. *)
Definition trimmed (s : string) : Prop :=
  trimStart s = s /\ trimEnd s = s.

(** The label list of an issue: the names of its entries, or the empty
    list when the field is absent. *)
Definition normalizedLabels (entries : option (list LabelEntry))
  : list string :=
  match entries with
  | None => []
  | Some l =>
      map (fun e => match e with LabelString s => s | LabelObject n => n end)
          l
  end.

(** A document: type "doc", version 1 and the given blocks. *)
Definition document (blocks : list value) : value :=
  VObj [("type", VStr "doc"); ("version", VNum 1); ("content", VArr blocks)].

(** A text node without marks. *)
Definition textNode (text : value) : value :=
  VObj [("type", VStr "text"); ("text", text)].

(** A paragraph block holding the given nodes. *)
Definition paragraph (nodes : list value) : value :=
  VObj [("type", VStr "paragraph"); ("content", VArr nodes)].

(** An emphasised text node. *)
Definition emphasised (text : string) : value :=
  VObj [("type", VStr "text"); ("text", VStr text);
        ("marks", VArr [VObj [("type", VStr "em")]])].

(** A text node showing [url] and linking to it. *)
Definition linkNode (url : string) : value :=
  VObj [("type", VStr "text"); ("text", VStr url);
        ("marks",
         VArr [VObj [("type", VStr "link");
                     ("attrs", VObj [("href", VStr url)])]])].

Definition rule : value := VObj [("type", VStr "rule")].

(** The lines of a text that are kept: those not empty after trimming. *)
Definition retainedLines (text : string) : list string :=
  List.filter (fun line => nonEmpty (trim line)) (splitLF text).

(** One paragraph with one text node, the trimmed line, per kept line. *)
Definition renderLines (text : string) : list value :=
  map (fun line => paragraph [textNode (VStr (trim line))])
      (retainedLines text).

(** The blocks of a document. *)
Definition contentOf (d : value) : list value :=
  elements (member d "content").

(** The level of the heading that opens a document. *)
Definition headingLevel (d : value) : value :=
  member (member (hd VUndefined (contentOf d)) "attrs") "level".


(** The document [d] holds one list block of the given kind, whose items
    are, in order, one paragraph with one text node per element of
    [items]. *)
Definition holdsItems (d : value) (kind : string) (items : list value)
  : Prop :=
  exists block,
    contentOf d = [block]
    /\ member block "type" = VStr kind
    /\ Forall2
         (fun item entry =>
            member entry "type" = VStr "listItem"
            /\ elements (member entry "content")
               = [paragraph [textNode item]])
         items (elements (member block "content")).

End Spec.

(** ** Auxiliary notions of the proofs *)

Module Aux.
Import JsString JsRegExp.

(** Equality of two strings under the matcher's character comparison. *)
Fixpoint ciEqual (pat t : string) : bool :=
  match pat, t with
  | EmptyString, EmptyString => true
  | String p pat', String c t' =>
      Ascii.eqb (canonicalize c) (canonicalize p) && ciEqual pat' t'
  | _, _ => false
  end.

(** The text up to the first line terminator, and the text from it on. *)
Fixpoint firstLine (s : string) : string :=
  match s with
  | EmptyString => EmptyString
  | String c s' =>
      if isLineTerminator c then EmptyString else String c (firstLine s')
  end.

Fixpoint afterFirstLine (s : string) : string :=
  match s with
  | EmptyString => EmptyString
  | String c s' => if isLineTerminator c then s else afterFirstLine s'
  end.

Definition allAscii : list ascii := map ascii_of_nat (seq 0 256).

Definition forallAscii (P : ascii -> bool) : bool := forallb P allAscii.

(** The final continuation of [test]. *)
Definition accept : cont := fun _ _ => true.

(** The trailing part of the area pattern matches at [s]. *)
Definition tailOK (s : string) : bool :=
  run (Seq WsStar Eol) None s accept.

(** The tag and the trailing part match at [s]. *)
Definition tagAt (tag s : string) : bool :=
  run (literal tag (Seq WsStar Eol)) None s accept.

(** The pattern after its [^] matches at [s]. *)
Definition fromLineStart (tag s : string) : bool :=
  run (Seq WsStar (literal tag (Seq WsStar Eol))) None s accept.

(** A character of a component tag: an upper-case letter or a space. *)
Definition tagChar (c : ascii) : bool :=
  ((65 <=? code c)%N && (code c <=? 90)%N) || (code c =? 32)%N.

Definition tagChars (tag : string) : bool :=
  forallb tagChar (list_ascii_of_string tag).

(** A tag of letters and inner spaces, not empty. *)
Definition goodTag (tag : string) : Prop :=
  tagChars tag = true /\ Spec.trimmed tag /\ tag <> EmptyString.

End Aux.

Import JsString JsRegExp JsValue MapIssueType AdfUtils Create Spec Aux.

(** ** Facts about the host string functions *)

Section StringFacts.

Lemma append_empty_r (s : string) : s +:+ "" = s.
Proof. induction s as [|c s IH]; simpl; [reflexivity | now f_equal]. Qed.

Lemma append_assoc (a b c : string) : (a +:+ b) +:+ c = a +:+ (b +:+ c).
Proof. induction a as [|x a IH]; simpl; [reflexivity | now f_equal]. Qed.

Lemma startsWith_spec (pat s : string) :
  startsWith s pat = true <-> exists post, s = pat +:+ post.
Proof.
  revert s; induction pat as [|p pat IH]; intros s; simpl.
  - split; [intros _; now exists s | reflexivity].
  - destruct s as [|c s]; simpl.
    + split; [discriminate | intros [post H]; discriminate].
    + rewrite andb_true_iff, IH. split.
      * intros [Hc [post ->]]. apply Ascii.eqb_eq in Hc as ->. now exists post.
      * intros [post H]. injection H as -> ->. split.
        -- apply Ascii.eqb_refl.
        -- now exists post.
Qed.

Lemma includes_startsWith (s pat : string) :
  startsWith s pat = true -> includes s pat = true.
Proof. intros H. destruct s; simpl; rewrite H; reflexivity. Qed.

Lemma includes_spec (s pat : string) :
  includes s pat = true <-> contains s pat.
Proof.
  unfold contains. split.
  - induction s as [|c s IH]; simpl; rewrite orb_true_iff.
    + intros [H | H]; [|discriminate].
      apply startsWith_spec in H as [post ->]. now exists "", post.
    + intros [H | H].
      * apply startsWith_spec in H as [post H]. now exists "", post.
      * destruct (IH H) as (pre & post & ->). now exists (String c pre), post.
  - intros (pre & post & ->). induction pre as [|c pre IH]; simpl.
    + apply includes_startsWith, startsWith_spec. now exists post.
    + apply orb_true_iff. right. exact IH.
Qed.

Lemma allWhiteSpace_cons (c : ascii) (s : string) :
  allWhiteSpace (String c s) = isWhiteSpace c && allWhiteSpace s.
Proof. reflexivity. Qed.

Lemma allWhiteSpace_app (a b : string) :
  allWhiteSpace (a +:+ b) = allWhiteSpace a && allWhiteSpace b.
Proof.
  induction a as [|c a IH]; simpl; [reflexivity|].
  rewrite !allWhiteSpace_cons, IH. apply andb_assoc.
Qed.

Lemma trimStart_decomp (s : string) :
  exists w, s = w +:+ trimStart s /\ allWhiteSpace w = true.
Proof.
  induction s as [|c s (w & Hs & Hw)]; simpl.
  - now exists "".
  - destruct (isWhiteSpace c) eqn:Hc.
    + exists (String c w). simpl. rewrite <- Hs, allWhiteSpace_cons, Hc, Hw.
      now split.
    + now exists "".
Qed.

Lemma trimStart_head (s : string) (c : ascii) (r : string) :
  trimStart s = String c r -> isWhiteSpace c = false.
Proof.
  induction s as [|a s IH]; simpl; [discriminate|].
  destruct (isWhiteSpace a) eqn:Ha; [exact IH|].
  intros H. injection H as <- _. exact Ha.
Qed.

Lemma trimStart_allws (w s : string) :
  allWhiteSpace w = true -> trimStart (w +:+ s) = trimStart s.
Proof.
  induction w as [|c w IH]; simpl; [reflexivity|].
  rewrite allWhiteSpace_cons, andb_true_iff. intros [-> Hw]. now apply IH.
Qed.

Lemma trimStart_empty_iff (s : string) :
  trimStart s = "" <-> allWhiteSpace s = true.
Proof.
  induction s as [|c s IH]; simpl; [easy|].
  rewrite allWhiteSpace_cons. destruct (isWhiteSpace c); simpl; [exact IH|].
  split; discriminate.
Qed.

Lemma trimStart_idem (s : string) : trimStart (trimStart s) = trimStart s.
Proof.
  destruct (trimStart s) as [|c r] eqn:E; [reflexivity|].
  simpl. now rewrite (trimStart_head _ _ _ E).
Qed.

Lemma trimEnd_cons (c : ascii) (s : string) :
  isWhiteSpace c = false -> trimEnd (String c s) = String c (trimEnd s).
Proof. intros Hc. simpl. rewrite Hc. now destruct (trimEnd s). Qed.

Lemma trimEnd_empty_iff (s : string) :
  trimEnd s = "" <-> allWhiteSpace s = true.
Proof.
  induction s as [|c s IH]; simpl; [easy|].
  rewrite allWhiteSpace_cons, andb_true_iff, <- IH.
  destruct (trimEnd s); destruct (isWhiteSpace c); split;
    try easy; intros [? ?]; easy.
Qed.

Lemma trimEnd_decomp (s : string) :
  exists w, s = trimEnd s +:+ w /\ allWhiteSpace w = true.
Proof.
  induction s as [|c s (w & Hs & Hw)]; simpl.
  - now exists "".
  - destruct (trimEnd s) as [|a r] eqn:E.
    + simpl in Hs. subst w. destruct (isWhiteSpace c) eqn:Hc.
      * exists (String c s). simpl. rewrite allWhiteSpace_cons, Hc, Hw.
        now split.
      * exists s. now split.
    + exists w. simpl. split; [now rewrite Hs at 1|exact Hw].
Qed.

Lemma trimEnd_idem (s : string) : trimEnd (trimEnd s) = trimEnd s.
Proof.
  induction s as [|c s IH]; simpl; [reflexivity|].
  destruct (trimEnd s) as [|a r] eqn:E.
  - destruct (isWhiteSpace c) eqn:Hc; simpl; [reflexivity|now rewrite Hc].
  - change (trimEnd (String c (String a r))) with
      (match trimEnd (String a r) with
       | "" => if isWhiteSpace c then "" else String c ""
       | r' => String c r'
       end).
    now rewrite IH.
Qed.

Lemma trimEnd_allws (s w : string) :
  allWhiteSpace w = true -> trimEnd (s +:+ w) = trimEnd s.
Proof.
  intros Hw. induction s as [|c s IH]; simpl.
  - now apply trimEnd_empty_iff.
  - now rewrite IH.
Qed.

Lemma trimStart_length (s : string) :
  String.length (trimStart s) <= String.length s.
Proof.
  induction s as [|c s IH]; simpl; [lia|].
  destruct (isWhiteSpace c); simpl; lia.
Qed.

Lemma trimStart_fixed (c : ascii) (r : string) :
  trimStart (String c r) = String c r -> isWhiteSpace c = false.
Proof.
  simpl. destruct (isWhiteSpace c); [|reflexivity].
  intros H. pose proof (trimStart_length r) as L. rewrite H in L.
  simpl in L. lia.
Qed.

Lemma trim_trimmed (s : string) : trimmed (trim s).
Proof.
  unfold trimmed, trim. split; [|apply trimEnd_idem].
  destruct (trimStart s) as [|c r] eqn:E; [reflexivity|].
  pose proof (trimStart_head _ _ _ E) as Hc.
  rewrite trimEnd_cons by exact Hc. simpl. now rewrite Hc.
Qed.

Lemma trim_decomp (s : string) :
  exists w1 w2, s = w1 +:+ trim s +:+ w2
                /\ allWhiteSpace w1 = true /\ allWhiteSpace w2 = true.
Proof.
  destruct (trimStart_decomp s) as (w1 & H1 & Hw1).
  destruct (trimEnd_decomp (trimStart s)) as (w2 & H2 & Hw2).
  exists w1, w2. unfold trim. now rewrite <- H2, <- H1.
Qed.

Lemma trim_unique (w1 t w2 : string) :
  allWhiteSpace w1 = true -> allWhiteSpace w2 = true -> trimmed t ->
  trim (w1 +:+ t +:+ w2) = t.
Proof.
  intros H1 H2 [Hs He]. unfold trim. rewrite trimStart_allws by exact H1.
  destruct t as [|c r].
  - simpl. apply trimStart_empty_iff in H2. now rewrite H2.
  - pose proof (trimStart_fixed _ _ Hs) as Hc.
    replace (trimStart (String c r +:+ w2)) with (String c r +:+ w2)
      by (simpl; now rewrite Hc).
    now rewrite trimEnd_allws.
Qed.

Lemma hasNonWhiteSpace_allWhiteSpace (s : string) :
  hasNonWhiteSpace s = negb (allWhiteSpace s).
Proof.
  unfold hasNonWhiteSpace, allWhiteSpace.
  induction (list_ascii_of_string s) as [|c l IH]; simpl; [reflexivity|].
  rewrite IH. now destruct (isWhiteSpace c).
Qed.

Lemma trim_empty_iff (s : string) :
  trim s = "" <-> allWhiteSpace s = true.
Proof.
  unfold trim. rewrite trimEnd_empty_iff, <- (trimStart_empty_iff s).
  destruct (trimStart s) as [|c r] eqn:E; [easy|].
  rewrite allWhiteSpace_cons, (trimStart_head _ _ _ E). easy.
Qed.

Lemma nonEmpty_trim (s : string) :
  nonEmpty (trim s) = hasNonWhiteSpace s.
Proof.
  rewrite hasNonWhiteSpace_allWhiteSpace.
  destruct (allWhiteSpace s) eqn:E.
  - apply trim_empty_iff in E. now rewrite E.
  - destruct (trim s) eqn:T; [|reflexivity].
    apply trim_empty_iff in T. congruence.
Qed.

Lemma nonEmpty_eqb (s : string) : negb (String.eqb s "") = nonEmpty s.
Proof. now destruct s. Qed.

End StringFacts.

(** ** Facts about single characters, checked over all 256 of them *)

Section CharFacts.

Lemma allAscii_complete (c : ascii) : In c allAscii.
Proof.
  unfold allAscii. rewrite <- (ascii_nat_embedding c).
  apply in_map, in_seq. pose proof (nat_ascii_bounded c). lia.
Qed.

Lemma forallAscii_spec (P : ascii -> bool) :
  forallAscii P = true -> forall c, P c = true.
Proof.
  unfold forallAscii. intros H c.
  exact (proj1 (forallb_forall P allAscii) H c (allAscii_complete c)).
Qed.

Lemma lineTerminator_whiteSpace (c : ascii) :
  isLineTerminator c = true -> isWhiteSpace c = true.
Proof.
  intros H.
  assert (G : forallAscii (fun c =>
                implb (isLineTerminator c) (isWhiteSpace c)) = true)
    by (vm_compute; reflexivity).
  pose proof (forallAscii_spec _ G c) as G'. cbv beta in G'.
  now rewrite H in G'.
Qed.

(** On a tag character the comparison of the matcher and the comparison
    of lower-case forms agree. *)
Lemma canonicalize_toLowerChar (p c : ascii) :
  tagChar p = true ->
  Ascii.eqb (canonicalize c) (canonicalize p)
  = Ascii.eqb (toLowerChar c) (toLowerChar p).
Proof.
  intros Hp.
  assert (G : forallAscii (fun p => forallAscii (fun c =>
                implb (tagChar p)
                  (Bool.eqb (Ascii.eqb (canonicalize c) (canonicalize p))
                            (Ascii.eqb (toLowerChar c) (toLowerChar p)))))
              = true) by (vm_compute; reflexivity).
  pose proof (forallAscii_spec _ (forallAscii_spec _ G p) c) as G'.
  cbv beta in G'.
  rewrite Hp in G'. now apply eqb_prop in G'.
Qed.

(** A character matching a tag character is no line terminator, and is
    white space only when the tag character is. *)
Lemma canonicalize_class (p c : ascii) :
  tagChar p = true ->
  Ascii.eqb (canonicalize c) (canonicalize p) = true ->
  isLineTerminator c = false /\ isWhiteSpace c = isWhiteSpace p.
Proof.
  intros Hp Hc.
  assert (G : forallAscii (fun p => forallAscii (fun c =>
                implb (tagChar p && Ascii.eqb (canonicalize c) (canonicalize p))
                  (negb (isLineTerminator c)
                   && Bool.eqb (isWhiteSpace c) (isWhiteSpace p))))
              = true) by (vm_compute; reflexivity).
  pose proof (forallAscii_spec _ (forallAscii_spec _ G p) c) as G'.
  cbv beta in G'.
  rewrite Hp, Hc in G'. simpl in G'. apply andb_true_iff in G' as [G1 G2].
  split; [now apply negb_true_iff | now apply eqb_prop].
Qed.

End CharFacts.

(** ** The matcher on the area pattern *)

Section AreaPattern.

Lemma wsStar_prev (k : cont) :
  (forall p q s, k p s = k q s) ->
  forall s p q, wsStar p s k = wsStar q s k.
Proof.
  intros Hk s p q. destruct s as [|c s]; simpl; now rewrite (Hk p q).
Qed.

Lemma tailOK_prev (p : option ascii) (s : string) :
  run (Seq WsStar Eol) p s accept = tailOK s.
Proof. unfold tailOK. simpl. now apply wsStar_prev. Qed.

Lemma tagAt_prev (tag : string) (p : option ascii) (s : string) :
  run (literal tag (Seq WsStar Eol)) p s accept = tagAt tag s.
Proof.
  unfold tagAt. destruct tag as [|a tag]; [|reflexivity].
  simpl literal. now rewrite !tailOK_prev.
Qed.

Lemma fromLineStart_prev (tag : string) (p : option ascii) (s : string) :
  run (Seq WsStar (literal tag (Seq WsStar Eol))) p s accept
  = fromLineStart tag s.
Proof.
  unfold fromLineStart. simpl. apply wsStar_prev.
  intros p' q' s'. now rewrite !tagAt_prev.
Qed.

Lemma run_areaRegex (tag : string) (prev : option ascii) (s : string) :
  run (areaRegex tag) prev s accept
  = atLineStart prev && fromLineStart tag s.
Proof.
  unfold areaRegex.
  change (run (Seq Bol ?r) prev s accept)
    with (atLineStart prev && run r prev s accept).
  now rewrite fromLineStart_prev.
Qed.

Lemma tailOK_nil : tailOK "" = true.
Proof. reflexivity. Qed.

Lemma tailOK_cons (c : ascii) (s : string) :
  tailOK (String c s)
  = if isWhiteSpace c then tailOK s || isLineTerminator c
    else isLineTerminator c.
Proof.
  unfold tailOK. simpl. rewrite andb_true_r.
  destruct (isWhiteSpace c); [|reflexivity]. f_equal.
  now apply wsStar_prev.
Qed.

Lemma tagAt_empty (s : string) : tagAt "" s = tailOK s.
Proof. reflexivity. Qed.

Lemma tagAt_nil (p : ascii) (tag : string) : tagAt (String p tag) "" = false.
Proof. reflexivity. Qed.

Lemma tagAt_cons (p : ascii) (tag : string) (c : ascii) (s : string) :
  tagAt (String p tag) (String c s)
  = Ascii.eqb (canonicalize c) (canonicalize p) && tagAt tag s.
Proof. unfold tagAt at 1. simpl. now rewrite tagAt_prev. Qed.

Lemma fromLineStart_nil (tag : string) :
  fromLineStart tag "" = tagAt tag "".
Proof. reflexivity. Qed.

Lemma fromLineStart_cons (tag : string) (c : ascii) (s : string) :
  fromLineStart tag (String c s)
  = if isWhiteSpace c then fromLineStart tag s || tagAt tag (String c s)
    else tagAt tag (String c s).
Proof.
  unfold fromLineStart at 1. simpl. fold (tagAt tag (String c s)).
  destruct (isWhiteSpace c); [|reflexivity]. f_equal.
  unfold fromLineStart. simpl. apply wsStar_prev.
  intros p' q' s'. now rewrite !tagAt_prev.
Qed.

Lemma tagAt_decomp (tag s : string) :
  tagAt tag s = true ->
  exists t rest, s = t +:+ rest /\ ciEqual tag t = true /\ tailOK rest = true.
Proof.
  revert s. induction tag as [|p tag IH]; intros s H.
  - exists "", s. now rewrite tagAt_empty in H.
  - destruct s as [|c s]; [now rewrite tagAt_nil in H|].
    rewrite tagAt_cons in H. apply andb_true_iff in H as [Hc H].
    destruct (IH s H) as (t & rest & -> & Ht & Hr).
    exists (String c t), rest. simpl. now rewrite Hc, Ht.
Qed.

Lemma tagAt_intro (tag t rest : string) :
  ciEqual tag t = true -> tagAt tag (t +:+ rest) = tailOK rest.
Proof.
  revert t. induction tag as [|p tag IH]; intros [|c t]; simpl; try easy.
  intros H. apply andb_true_iff in H as [Hc H].
  now rewrite tagAt_cons, Hc, IH.
Qed.

(** *** Lines *)

Lemma lines_hd (s : string) : exists ls, lines s = firstLine s :: ls.
Proof.
  unfold lines. induction s as [|c s [ls IH]]; simpl.
  - now exists [].
  - destruct (isLineTerminator c); [now eexists|].
    rewrite IH. now eexists.
Qed.

Lemma lines_tl (c : ascii) (s : string) :
  tl (lines (String c s))
  = if isLineTerminator c then lines s else tl (lines s).
Proof.
  unfold lines. simpl. destruct (isLineTerminator c); [reflexivity|].
  now destruct (splitOn isLineTerminator s).
Qed.

Lemma lines_cons (s : string) : lines s = firstLine s :: tl (lines s).
Proof. destruct (lines_hd s) as [ls ->]. reflexivity. Qed.

Lemma firstLine_app (t rest : string) :
  firstLine t = t -> firstLine (t +:+ rest) = t +:+ firstLine rest.
Proof.
  induction t as [|c t IH]; simpl; [reflexivity|].
  destruct (isLineTerminator c); [discriminate|].
  intros H. injection H as H. now rewrite IH.
Qed.

Lemma firstLine_decomp (s : string) :
  s = firstLine s +:+ afterFirstLine s
  /\ atLineEnd (afterFirstLine s) = true.
Proof.
  induction s as [|c s [IH1 IH2]]; simpl; [easy|].
  destruct (isLineTerminator c) eqn:Hc; simpl.
  - now rewrite Hc.
  - now rewrite <- IH1.
Qed.

Lemma tailOK_firstLine (s : string) :
  tailOK s = true -> allWhiteSpace (firstLine s) = true.
Proof.
  induction s as [|c s IH]; simpl; [reflexivity|].
  rewrite tailOK_cons. destruct (isLineTerminator c) eqn:Hl; [reflexivity|].
  destruct (isWhiteSpace c) eqn:Hw; [|discriminate].
  rewrite orb_false_r. intros H.
  now rewrite allWhiteSpace_cons, Hw, IH.
Qed.

Lemma tailOK_intro (w rest : string) :
  allWhiteSpace w = true -> atLineEnd rest = true ->
  tailOK (w +:+ rest) = true.
Proof.
  intros Hw Hr. induction w as [|c w IH]; simpl.
  - destruct rest as [|c r]; [reflexivity|]. simpl in Hr.
    rewrite tailOK_cons, Hr, orb_true_r. now destruct (isWhiteSpace c).
  - rewrite allWhiteSpace_cons in Hw. apply andb_true_iff in Hw as [Hc Hw].
    now rewrite tailOK_cons, Hc, IH.
Qed.

End AreaPattern.

(** ** The area pattern against the lines of the body *)

Section ComponentScan.

Lemma ciEqual_lower (tag t : string) :
  tagChars tag = true ->
  (ciEqual tag t = true <-> toLowerCase t = toLowerCase tag).
Proof.
  unfold tagChars. revert t.
  induction tag as [|p tag IH]; intros [|c t]; simpl; try easy.
  rewrite andb_true_iff. intros [Hp Htag].
  rewrite andb_true_iff, (canonicalize_toLowerChar p c Hp), (IH t Htag).
  rewrite Ascii.eqb_eq. split.
  - now intros [-> ->].
  - intros H. now injection H.
Qed.

Lemma ciEqual_firstLine (tag t : string) :
  tagChars tag = true -> ciEqual tag t = true -> firstLine t = t.
Proof.
  unfold tagChars. revert t.
  induction tag as [|p tag IH]; intros [|c t]; simpl; try easy.
  rewrite !andb_true_iff. intros [Hp Htag] [Hc Ht].
  destruct (canonicalize_class p c Hp Hc) as [-> _].
  now rewrite (IH t Htag Ht).
Qed.

Lemma trimEnd_fixed_cons (p : ascii) (q : string) :
  trimEnd (String p q) = String p q ->
  (q = "" /\ isWhiteSpace p = false) \/ (q <> "" /\ trimEnd q = q).
Proof.
  simpl. destruct (trimEnd q) as [|a r] eqn:E.
  - destruct (isWhiteSpace p); [discriminate|].
    intros H. injection H as <-. now left.
  - intros H. injection H as <-. right. now split.
Qed.

Lemma ciEqual_trimEnd (tag t : string) :
  tagChars tag = true -> ciEqual tag t = true ->
  trimEnd tag = tag -> trimEnd t = t.
Proof.
  unfold tagChars. revert t.
  induction tag as [|p tag IH]; intros [|c t]; simpl ciEqual; try easy.
  simpl forallb. rewrite !andb_true_iff. intros [Hp Htag] [Hc Ht] He.
  destruct (canonicalize_class p c Hp Hc) as [_ Hw].
  destruct (trimEnd_fixed_cons _ _ He) as [[-> Hp'] | [Hq He']].
  - destruct t; [|discriminate]. simpl. now rewrite Hw, Hp'.
  - specialize (IH t Htag Ht He'). simpl. rewrite IH.
    destruct t; [|reflexivity]. now destruct tag.
Qed.

Lemma ciEqual_trimmed (tag t : string) :
  tagChars tag = true -> ciEqual tag t = true ->
  trimmed tag -> trimmed t.
Proof.
  intros Htag Ht [Hs He]. split; [|now apply (ciEqual_trimEnd tag)].
  destruct tag as [|p tag], t as [|c t]; try easy.
  unfold tagChars in Htag. simpl in Htag, Ht.
  apply andb_true_iff in Htag as [Hp _]. apply andb_true_iff in Ht as [Hc _].
  destruct (canonicalize_class p c Hp Hc) as [_ Hw].
  simpl. now rewrite Hw, (trimStart_fixed _ _ Hs).
Qed.

Lemma lineIsTag_empty (tag : string) :
  tag <> "" -> lineIsTag tag "" = false.
Proof. intros H. now destruct tag. Qed.

Lemma lineIsTag_skip (tag : string) (c : ascii) (l : string) :
  isWhiteSpace c = true -> lineIsTag tag (String c l) = lineIsTag tag l.
Proof. intros Hc. unfold lineIsTag, trim. simpl. now rewrite Hc. Qed.

Lemma testFrom_nil (r : regex) (prev : option ascii) :
  testFrom r prev "" = run r prev "" accept || false.
Proof. reflexivity. Qed.

Lemma testFrom_cons (r : regex) (prev : option ascii) (c : ascii)
  (s : string) :
  testFrom r prev (String c s)
  = run r prev (String c s) accept || testFrom r (Some c) s.
Proof. reflexivity. Qed.

Variable tag : string.
Hypothesis tag_good : goodTag tag.

Lemma tagAt_firstLine (s : string) :
  tagAt tag s = true -> lineIsTag tag (firstLine s) = true.
Proof.
  destruct tag_good as (Hchars & Htrim & _). intros H.
  destruct (tagAt_decomp _ _ H) as (t & rest & -> & Ht & Hr).
  rewrite firstLine_app by now apply (ciEqual_firstLine tag).
  unfold lineIsTag.
  assert (U : trim (t +:+ firstLine rest) = t).
  { apply (trim_unique "" t (firstLine rest)).
    - reflexivity.
    - now apply tailOK_firstLine.
    - now apply (ciEqual_trimmed tag). }
  rewrite U. apply String.eqb_eq. now apply ciEqual_lower.
Qed.

Lemma firstLine_tagAt (c : ascii) (s : string) :
  isWhiteSpace c = false ->
  lineIsTag tag (firstLine (String c s)) = true ->
  tagAt tag (String c s) = true.
Proof.
  destruct tag_good as (Hchars & _ & _). intros Hc H.
  destruct (firstLine_decomp (String c s)) as [Hs Hafter].
  destruct (trimEnd_decomp (firstLine (String c s))) as (w & Hl & Hw).
  assert (Ht : trim (firstLine (String c s)) = trimEnd (firstLine (String c s))).
  { unfold trim. f_equal. simpl.
    destruct (isLineTerminator c); [reflexivity|]. simpl. now rewrite Hc. }
  unfold lineIsTag in H. rewrite Ht in H. apply String.eqb_eq in H.
  apply (ciEqual_lower tag _ Hchars) in H.
  rewrite Hs, Hl, append_assoc, (tagAt_intro _ _ _ H).
  now apply tailOK_intro.
Qed.

Lemma fromLineStart_lines (s : string) :
  fromLineStart tag s = true -> existsb (lineIsTag tag) (lines s) = true.
Proof.
  destruct tag_good as (_ & _ & Hne).
  induction s as [|c s IH].
  - rewrite fromLineStart_nil. destruct tag; [easy|]. now rewrite tagAt_nil.
  - rewrite fromLineStart_cons. intros H.
    assert (Hfirst : tagAt tag (String c s) = true ->
                     existsb (lineIsTag tag) (lines (String c s)) = true).
    { intros G. rewrite lines_cons. cbn [existsb].
      now rewrite (tagAt_firstLine _ G). }
    destruct (isWhiteSpace c) eqn:Hc; [|now apply Hfirst].
    apply orb_true_iff in H as [H | H]; [|now apply Hfirst].
    specialize (IH H). rewrite lines_cons, lines_tl. cbn [existsb firstLine].
    destruct (isLineTerminator c); [now rewrite IH, orb_true_r|].
    rewrite lines_cons in IH. cbn [existsb] in IH.
    now rewrite lineIsTag_skip.
Qed.

Lemma firstLine_fromLineStart (s : string) :
  lineIsTag tag (firstLine s) = true -> fromLineStart tag s = true.
Proof.
  destruct tag_good as (_ & _ & Hne).
  induction s as [|c s IH]; intros H.
  - simpl in H. now rewrite lineIsTag_empty in H.
  - rewrite fromLineStart_cons.
    destruct (isWhiteSpace c) eqn:Hc; [|now apply firstLine_tagAt].
    simpl in H. destruct (isLineTerminator c).
    + now rewrite lineIsTag_empty in H.
    + rewrite lineIsTag_skip in H by exact Hc. now rewrite IH.
Qed.

Lemma testFrom_lines (s : string) (prev : option ascii) :
  testFrom (areaRegex tag) prev s
  = existsb (lineIsTag tag)
      (if atLineStart prev then lines s else tl (lines s)).
Proof.
  destruct tag_good as (_ & _ & Hne).
  revert prev. induction s as [|c s IH]; intros prev.
  - rewrite testFrom_nil, run_areaRegex, fromLineStart_nil, orb_false_r.
    replace (tagAt tag "") with false by (destruct tag; easy).
    rewrite andb_false_r. unfold lines. simpl.
    destruct (atLineStart prev); [|reflexivity]. cbn [existsb].
    now rewrite lineIsTag_empty.
  - rewrite testFrom_cons, run_areaRegex, IH.
    change (atLineStart (Some c)) with (isLineTerminator c).
    rewrite <- lines_tl.
    destruct (atLineStart prev); simpl andb; [|reflexivity].
    rewrite (lines_cons (String c s)) at 2. cbn [existsb].
    destruct (existsb (lineIsTag tag) (tl (lines (String c s)))) eqn:E;
      [now rewrite !orb_true_r|].
    rewrite !orb_false_r.
    destruct (lineIsTag tag (firstLine (String c s))) eqn:F.
    + now apply firstLine_fromLineStart.
    + destruct (fromLineStart tag (String c s)) eqn:G; [|reflexivity].
      apply fromLineStart_lines in G.
      rewrite lines_cons in G. cbn [existsb] in G. now rewrite F, E in G.
Qed.

(** The area pattern finds a match in [body] exactly when some line of
    [body] is the tag. *)
Lemma test_areaRegex (body : string) :
  test (areaRegex tag) body = existsb (lineIsTag tag) (lines body).
Proof. unfold test. now rewrite testFrom_lines. Qed.

End ComponentScan.

(** ** The classifier *)

Section Classifier.

Lemma platformAreas_good (tag : string) :
  In tag platformAreas -> goodTag tag.
Proof.
  unfold platformAreas. simpl.
  intros [<- | [<- | [<- | [<- | []]]]]; repeat split; easy.
Qed.

Lemma forEach_push {A : Type} (keep : A -> bool) (items acc : list A) :
  fold_left (fun acc x => if keep x then push acc x else acc) items acc
  = acc ++ List.filter keep items.
Proof.
  revert acc. induction items as [|x items IH]; intros acc; simpl.
  - now rewrite app_nil_r.
  - rewrite IH. destruct (keep x); [|reflexivity].
    unfold push. now rewrite <- app_assoc.
Qed.

Lemma extractComponents_componentsOf (body : string) :
  extractComponents body = componentsOf body.
Proof.
  unfold extractComponents, componentsOf. rewrite forEach_push.
  change ([] ++ ?l) with l. apply filter_ext_in. intros tag Htag.
  apply test_areaRegex, platformAreas_good, Htag.
Qed.

(** The priority function and the cascade of the specification agree on
    every issue whose lower-cased body does not contain "critical". *)
Lemma mapPriority_priorityCascade (issue : GitHubIssue) :
  includes (toLowerCase (orEmpty (body issue))) "critical" = false ->
  mapPriority issue = priorityCascade issue.
Proof.
  intros H. unfold mapPriority, priorityCascade. rewrite H.
  now rewrite orb_false_r.
Qed.

(** A label that names no member of [Object.prototype] has a truthy
    lookup exactly when it is a key with a non-empty value. *)
Lemma getMapping_own (mappings : gmap string string) (label : string) :
  existsb (String.eqb label) objectPrototypeMembers = false ->
  (isTruthy (getMapping mappings label) = true
   <-> exists issueType, mappings !! label = Some issueType
                         /\ issueType <> "").
Proof.
  intros Hl. unfold getMapping. rewrite Hl.
  destruct (mappings !! label) as [v|]; simpl.
  - split.
    + intros H. exists v. split; [reflexivity|]. now destruct v.
    + intros (v' & [= <-] & Hv). now destruct v.
  - split; [discriminate|]. now intros (v & ? & _).
Qed.

(** The lookup of a label that is a key, or that names no inherited
    member: the value of the key, or [undefined]. *)
Lemma getMapping_key (mappings : gmap string string) (label : string) :
  (mappings !! label = None -> ~ In label objectPrototypeMembers) ->
  getMapping mappings label
  = match mappings !! label with
    | Some issueType => JString issueType
    | None => JUndefined
    end.
Proof.
  intros H. unfold getMapping.
  destruct (mappings !! label) as [v|]; [reflexivity|].
  destruct (existsb (String.eqb label) objectPrototypeMembers) eqn:E;
    [|reflexivity].
  apply existsb_exists in E as (x & Hin & Hx).
  apply String.eqb_eq in Hx as <-. now elim (H eq_refl).
Qed.

Lemma firstMapped_spec (mappings : gmap string string)
  (labels : list string) :
  match firstMapped mappings labels with
  | Some v =>
      exists pre L post,
        labels = pre ++ L :: post
        /\ Forall (fun l => isTruthy (getMapping mappings l) = false) pre
        /\ isTruthy (getMapping mappings L) = true
        /\ v = getMapping mappings L
  | None =>
      Forall (fun l => isTruthy (getMapping mappings l) = false) labels
  end.
Proof.
  induction labels as [|l labels IH]; simpl; [constructor|].
  destruct (isTruthy (getMapping mappings l)) eqn:E.
  - exists [], l, labels. repeat split; [constructor | exact E].
  - destruct (firstMapped mappings labels) as [v|].
    + destruct IH as (pre & L & post & -> & Hpre & HL & ->).
      exists (l :: pre), L, post. repeat split; [|exact HL].
      now constructor.
    + now constructor.
Qed.

End Classifier.

(** ** Properties of map-issue-type.js *)

(** C1 (defect in the code).  Rule 4 of [mapPriority] looks for "urgent"
    and "critical" in the title but only for "urgent" in the body: the
    feature request of the mapping summary, whose body reads
    "High - Critical for business operations", is given priority Medium,
    where the five-rule cascade gives High. *)
Theorem C1_mapPriority_misses_critical_in_body :
  let issue :=
    {| title := Some "Add real-time chat system";
       body := Some "High - Critical for business operations";
       labels := Some [LabelObject "Feature Request"] |} in
  mapPriority issue = "Medium" /\ priorityCascade issue = "High".
Proof. split; vm_compute; reflexivity. Qed.

(** A key whose value is the empty string is passed over: the label is the
    first key of the mappings, yet the default issue type is returned. *)
Lemma C2_counterexample_empty_mapping_value :
  let config :=
    {| mappings := {[ "Bug Report" := "" ]};
       defaultIssueType := "Technical Support" |} in
  mappings config !! "Bug Report" = Some ""
  /\ fst (mapGitHubLabelsToJiraIssueType ["Bug Report"] (ConfigLoaded config))
     = JString "Technical Support"
  /\ fst (mapGitHubLabelsToJiraIssueType ["Bug Report"] (ConfigLoaded config))
     <> JString (issueTypeOfFirstKey (mappings config)
                   (defaultIssueType config) ["Bug Report"]).
Proof. repeat split; vm_compute; congruence. Qed.

(** C2 (amended).  With a loaded configuration the function returns
    [mappings[L]] for the first label [L], in input order, that is a key of
    the mappings with a non-empty value, and logs nothing; a key whose
    value is the empty string is passed over like a label that is no key.
    When no label is such a key (in particular for the empty list) it logs
    and returns [defaultIssueType].  No error arises when several labels
    are mapped.  This is stated for label lists in which a label that is
    no key names no member inherited from [Object.prototype]. *)
Theorem C2_first_key_with_non_empty_value_wins (githubLabels : list string)
  (config : MappingConfig) :
  Forall (fun l => mappings config !! l = None ->
                   ~ In l objectPrototypeMembers) githubLabels ->
  (exists pre L post issueType,
      githubLabels = pre ++ L :: post
      /\ Forall (fun l => mappings config !! l = None
                          \/ mappings config !! l = Some "") pre
      /\ mappings config !! L = Some issueType
      /\ issueType <> ""
      /\ mapGitHubLabelsToJiraIssueType githubLabels (ConfigLoaded config)
         = (JString issueType, []))
  \/ (Forall (fun l => mappings config !! l = None
                       \/ mappings config !! l = Some "") githubLabels
      /\ mapGitHubLabelsToJiraIssueType githubLabels (ConfigLoaded config)
         = (JString (defaultIssueType config),
            [LogDefault (defaultIssueType config)])).
Proof.
  intros Hlabels.
  assert (Hfalsy : forall ls,
             Forall (fun l => mappings config !! l = None ->
                              ~ In l objectPrototypeMembers) ls ->
             Forall (fun l => isTruthy (getMapping (mappings config) l)
                              = false) ls ->
             Forall (fun l => mappings config !! l = None
                              \/ mappings config !! l = Some "") ls).
  { intros ls H1 H2. induction H1 as [|l ls Hl _ IH]; [constructor|].
    inversion H2 as [|? ? Hf H2']. subst. constructor; [|now apply IH].
    rewrite (getMapping_key _ _ Hl) in Hf.
    destruct (mappings config !! l) as [[|c v]|]; [now right | | now left].
    discriminate Hf. }
  pose proof (firstMapped_spec (mappings config) githubLabels) as H.
  unfold mapGitHubLabelsToJiraIssueType.
  destruct (firstMapped (mappings config) githubLabels) as [v|].
  - left. destruct H as (pre & L & post & -> & Hpre & HL & ->).
    apply Forall_app in Hlabels as [Hlpre Hlrest].
    inversion Hlrest as [|? ? HlL _]. subst.
    rewrite (getMapping_key _ _ HlL) in HL |- *.
    destruct (mappings config !! L) as [issueType|] eqn:E;
      [|discriminate HL].
    exists pre, L, post, issueType. repeat split.
    + now apply Hfalsy.
    + exact E.
    + intros ->. discriminate HL.
  - right. split; [now apply Hfalsy | reflexivity].
Qed.

Lemma C2_witness_first_key :
  let config :=
    {| mappings := {[ "Bug Report" := "Bug" ]};
       defaultIssueType := "Technical Support" |} in
  exists issueType,
    mappings config !! "Bug Report" = Some issueType
    /\ mapGitHubLabelsToJiraIssueType ["Unknown Label"; "Bug Report"]
         (ConfigLoaded config)
       = (JString issueType, []).
Proof.
  intros config.
  destruct (C2_first_key_with_non_empty_value_wins
              ["Unknown Label"; "Bug Report"] config)
    as [(pre & L & post & issueType & Hl & Hpre & HL & Hne & Hr) | [Hall _]].
  - repeat constructor; intros _ Hin; simpl in Hin;
      intuition discriminate.
  - exists issueType. split; [|exact Hr].
    destruct pre as [|p0 [|p1 pre]].
    + injection Hl as <- _. vm_compute in HL. discriminate HL.
    + injection Hl as _ <- _. exact HL.
    + injection Hl as _ _ Hl. now destruct pre.
  - inversion Hall as [|? ? _ Hall']. subst.
    inversion Hall' as [|? ? [Hb | Hb] _]; subst;
      vm_compute in Hb; discriminate Hb.
Defined.

(** C3.  When the configuration cannot be read the function returns "Task"
    for every label list, after logging the error and the fallback; a
    configuration that was read gives its own [defaultIssueType] for the
    empty list and for labels without a truthy lookup. *)
Theorem C3_config_error_gives_Task (githubLabels : list string)
  (message : string) (config : MappingConfig) :
  mapGitHubLabelsToJiraIssueType githubLabels (ConfigError message)
  = (JString "Task", [ErrorReadingConfig message; LogFallbackTask])
  /\ mapGitHubLabelsToJiraIssueType [] (ConfigLoaded config)
     = (JString (defaultIssueType config),
        [LogDefault (defaultIssueType config)])
  /\ (Forall (fun l => isTruthy (getMapping (mappings config) l) = false)
             githubLabels ->
      mapGitHubLabelsToJiraIssueType githubLabels (ConfigLoaded config)
      = (JString (defaultIssueType config),
         [LogDefault (defaultIssueType config)])).
Proof.
  repeat split. intros Hnone.
  pose proof (firstMapped_spec (mappings config) githubLabels) as H.
  unfold mapGitHubLabelsToJiraIssueType.
  destruct (firstMapped (mappings config) githubLabels) as [v|];
    [|reflexivity].
  destruct H as (pre & L & post & -> & _ & HL & _).
  apply Forall_app in Hnone as [_ Hnone]. inversion Hnone; congruence.
Qed.

Lemma C3_witness_unknown_label :
  let config :=
    {| mappings := {[ "Bug Report" := "Bug" ]};
       defaultIssueType := "Technical Support" |} in
  mapGitHubLabelsToJiraIssueType ["Unknown Label"] (ConfigError "ENOENT")
  = (JString "Task", [ErrorReadingConfig "ENOENT"; LogFallbackTask])
  /\ mapGitHubLabelsToJiraIssueType ["Unknown Label"] (ConfigLoaded config)
     = (JString "Technical Support", [LogDefault "Technical Support"]).
Proof.
  intros config.
  destruct (C3_config_error_gives_Task ["Unknown Label"] "ENOENT" config)
    as (H1 & _ & H3).
  split; [exact H1|]. apply H3. repeat constructor.
Defined.

(** C4.  The components returned by [mapGitHubIssueToJiraFields] are the
    tags of the vocabulary, in its order, for which some line of the body
    consists of the tag alone, up to surrounding white space and letter
    case: a tag is returned exactly when such a line exists. *)
Theorem C4_components_are_the_tag_lines (githubIssue : GitHubIssue)
  (read : ConfigRead) :
  let components :=
    Fields.components (fst (mapGitHubIssueToJiraFields githubIssue read)) in
  let body := orEmpty (body githubIssue) in
  components
  = List.filter (fun tag => existsb (lineIsTag tag) (lines body))
                ["REELS"; "ALPHA"; "TRINITY"; "AI HUB"]
  /\ forall tag,
       In tag components
       <-> In tag ["REELS"; "ALPHA"; "TRINITY"; "AI HUB"]
           /\ exists line, In line (lines body)
                           /\ toLowerCase (trim line) = toLowerCase tag.
Proof.
  intros components body0.
  assert (E : components = componentsOf body0).
  { unfold components, mapGitHubIssueToJiraFields.
    destruct (mapGitHubLabelsToJiraIssueType _ read). simpl.
    apply extractComponents_componentsOf. }
  split; [exact E|]. intros tag. rewrite E. unfold componentsOf.
  rewrite filter_In, existsb_exists. unfold lineIsTag, platformAreas.
  split.
  - intros [Hin (line & Hl & Heq)]. split; [exact Hin|].
    exists line. split; [exact Hl|]. now apply String.eqb_eq.
  - intros [Hin (line & Hl & Heq)]. split; [exact Hin|].
    exists line. split; [exact Hl|]. now apply String.eqb_eq.
Qed.

Lemma C4_witness_reels_line :
  let issue :=
    {| title := Some "Production system down - REELS not loading";
       body := Some ("Which part of the platform is affected?"
                     +:+ String "010" " reels "
                     +:+ String "010" "my ALPHA thing");
       labels := Some [LabelObject "Bug Report"] |} in
  In "REELS"
     (Fields.components
        (fst (mapGitHubIssueToJiraFields issue (ConfigError "ENOENT"))))
  /\ ~ In "ALPHA"
       (Fields.components
          (fst (mapGitHubIssueToJiraFields issue (ConfigError "ENOENT")))).
Proof.
  intros issue.
  destruct (C4_components_are_the_tag_lines issue (ConfigError "ENOENT"))
    as [E H].
  split.
  - apply H. split; [now left|]. exists " reels ". split.
    + vm_compute. tauto.
    + reflexivity.
  - rewrite E. vm_compute. intros [H1 | []]. discriminate H1.
Defined.

(** C10.  [mapGitHubIssueToJiraFields] takes the name of each label entry,
    a string entry being its own name, and the empty list when the labels
    are absent; the result holds this list as [labels], and the issue type,
    priority and components that the classifier functions give for it and
    for the issue. *)
Theorem C10_fields_from_normalized_labels (githubIssue : GitHubIssue)
  (read : ConfigRead) :
  let result := fst (mapGitHubIssueToJiraFields githubIssue read) in
  let names := normalizedLabels (labels githubIssue) in
  Fields.labels result = names
  /\ Fields.issueType result
     = fst (mapGitHubLabelsToJiraIssueType names read)
  /\ Fields.priority result = mapPriority githubIssue
  /\ Fields.components result
     = extractComponents (orEmpty (body githubIssue))
  /\ Fields.originalLabels result = labels githubIssue
  /\ snd (mapGitHubIssueToJiraFields githubIssue read)
     = snd (mapGitHubLabelsToJiraIssueType names read).
Proof.
  intros result names. unfold result, mapGitHubIssueToJiraFields.
  assert (E : match labels githubIssue with
              | Some entries => map labelName entries
              | None => []
              end = names).
  { unfold names, normalizedLabels. destruct (labels githubIssue); [|easy].
    apply map_ext. now intros []. }
  rewrite E. destruct (mapGitHubLabelsToJiraIssueType names read). easy.
Qed.

(** ** The document builder *)

Section Documents.

Lemma strictEq_VStr (v : value) (s : string) :
  strictEq v (VStr s) = true <-> v = VStr s.
Proof.
  destruct v; simpl; try easy.
  rewrite String.eqb_eq. split; congruence.
Qed.

Lemma strictEq_VNum (v : value) (n : Z) :
  strictEq v (VNum n) = true <-> v = VNum n.
Proof.
  destruct v; simpl; try easy.
  rewrite Z.eqb_eq. split; congruence.
Qed.

Lemma isArray_VArr (v : value) :
  isArray v = true <-> exists elems, v = VArr elems.
Proof.
  destruct v; simpl; split; try easy; try (intros [? ?]; easy).
  intros _. now eexists.
Qed.

Lemma isValidADF_shape (d : value) :
  isValidADF d = true
  <-> exists props content,
        d = VObj props
        /\ member d "type" = VStr "doc"
        /\ member d "version" = VNum 1
        /\ member d "content" = VArr content.
Proof.
  unfold isValidADF.
  rewrite !andb_true_iff, strictEq_VStr, strictEq_VNum, isArray_VArr.
  split.
  - intros [[[[Ht Ho] Hty] Hv] [content Hc]].
    destruct d; simpl in Hty; try discriminate.
    now exists props, content.
  - intros (props & content & -> & Hty & Hv & Hc).
    repeat split; try assumption. now exists content.
Qed.

Lemma isValidADF_document (blocks : list value) :
  isValidADF (document blocks) = true.
Proof. reflexivity. Qed.

Lemma retained_filter (text : string) :
  List.filter (fun line => negb (String.eqb (trim line) "")) (splitLF text)
  = retainedLines text.
Proof.
  unfold retainedLines. apply filter_ext. intros line. apply nonEmpty_eqb.
Qed.

(** [textToADF] on a non-empty string. *)
Lemma textToADF_string (c : ascii) (s : string) :
  textToADF (VStr (String c s))
  = document
      (match retainedLines (String c s) with
       | [] => [paragraph [textNode (VStr (String c s))]]
       | _ :: _ => renderLines (String c s)
       end).
Proof.
  unfold textToADF, renderLines.
  cbn [truthy nonEmpty typeof negb orb String.eqb asString].
  change (("string" =? "string")%string) with true. cbn [negb].
  rewrite retained_filter.
  destruct (retainedLines (String c s)); reflexivity.
Qed.

Lemma textToADF_document (text : value) :
  exists blocks, textToADF text = document blocks.
Proof.
  destruct text as [| | b | n | [|c s] | elems | props | z];
    try (now exists []).
  - exists []. unfold textToADF. now rewrite orb_true_r.
  - exists []. unfold textToADF. now rewrite orb_true_r.
  - rewrite textToADF_string. now eexists.
  - exists []. unfold textToADF. now rewrite orb_true_r.
Qed.

Lemma textToADF_valid (text : value) : isValidADF (textToADF text) = true.
Proof. destruct (textToADF_document text) as [blocks ->]. reflexivity. Qed.

Lemma forEach_push_map {A B : Type} (f : A -> B) (items : list A)
  (acc : list B) :
  fold_left (fun acc x => push acc (f x)) items acc = acc ++ map f items.
Proof.
  revert acc. induction items as [|x items IH]; intros acc; simpl.
  - now rewrite app_nil_r.
  - rewrite IH. unfold push. now rewrite <- app_assoc.
Qed.

Lemma bodyPresent_hasNonWhiteSpace (b : string) :
  bodyPresent (Some b) = hasNonWhiteSpace b.
Proof.
  unfold bodyPresent. rewrite nonEmpty_trim. now destruct b.
Qed.

(** Every block of [renderLines] carries a trimmed line of the text. *)
Lemma renderLines_trimmed (text : string) (block : value) :
  In block (renderLines text) ->
  exists line w1 w2,
    In line (splitLF text)
    /\ block = paragraph [textNode (VStr (trim line))]
    /\ line = w1 +:+ trim line +:+ w2
    /\ allWhiteSpace w1 = true /\ allWhiteSpace w2 = true
    /\ trimmed (trim line) /\ trim line <> "".
Proof.
  unfold renderLines, retainedLines. rewrite in_map_iff.
  intros (line & <- & Hin). apply filter_In in Hin as [Hin Hne].
  destruct (trim_decomp line) as (w1 & w2 & Hl & H1 & H2).
  exists line, w1, w2. repeat split; try assumption.
  - apply trim_trimmed.
  - apply trim_trimmed.
  - intros E. now rewrite E in Hne.
Qed.

(** The blocks of [createGitHubIssueADF], in order. *)
Lemma createGitHubIssueADF_content (githubUrl author createdAt : string)
  (body : option string) (mappingInfo : MappingInfo.t) :
  createGitHubIssueADF githubUrl author createdAt body mappingInfo
  = document
      ([ paragraph [textNode (VStr "Original GitHub Issue: ");
                    linkNode githubUrl];
         paragraph [textNode (VStr ("Created by: " +:+ author))];
         paragraph [textNode (VStr ("Created at: " +:+ createdAt))];
         rule ]
       ++ match MappingInfo.labels mappingInfo with
          | Some (l :: ls) =>
              [paragraph
                 [emphasised ("GitHub Labels: " +:+ join ", " (l :: ls))]]
          | _ => []
          end
       ++ match MappingInfo.issueType mappingInfo with
          | Some (String c s) =>
              [paragraph
                 [emphasised ("Mapped to Issue Type: " +:+ String c s)]]
          | _ => []
          end
       ++ match MappingInfo.priority mappingInfo with
          | Some (String c s) =>
              [paragraph [emphasised ("Priority: " +:+ String c s)]]
          | _ => []
          end
       ++ match body with
          | Some b => if hasNonWhiteSpace b then rule :: renderLines b
                      else []
          | None => []
          end).
Proof.
  unfold createGitHubIssueADF, renderLines.
  destruct body as [b|].
  - rewrite bodyPresent_hasNonWhiteSpace, retained_filter, forEach_push_map.
    destruct mappingInfo as [[[|l ls]|] [[|c1 s1]|] [[|c2 s2]|]];
      destruct (hasNonWhiteSpace b); reflexivity.
  - destruct mappingInfo as [[[|l ls]|] [[|c1 s1]|] [[|c2 s2]|]];
      reflexivity.
Qed.

End Documents.

(** ** The description handling of createIssue *)

Section DescriptionHandling.

Lemma adfDescription_valid (JSON_stringify : value -> string) (d : value) :
  isValidADF d = true -> adfDescription JSON_stringify d = d.
Proof.
  intros H. unfold adfDescription. rewrite H.
  apply isValidADF_shape in H as (props & content & -> & _). reflexivity.
Qed.

Lemma adfDescription_isValid (JSON_stringify : value -> string) (d : value) :
  isValidADF (adfDescription JSON_stringify d) = true.
Proof.
  destruct (isValidADF d) eqn:E; [now rewrite adfDescription_valid|].
  unfold adfDescription. rewrite E, andb_false_r.
  destruct (String.eqb (typeof d) "string"); [apply textToADF_valid|].
  destruct (truthy d && String.eqb (typeof d) "object");
    apply textToADF_valid.
Qed.

Lemma hasBigInt_false_stringify (JSON_stringify : value -> string)
  (v : value) :
  hasBigInt v = false ->
  stringifyOrThrow JSON_stringify v = Normal (JSON_stringify v).
Proof. intros H. unfold stringifyOrThrow. now rewrite H. Qed.

(** The handling throws for an object that is no valid document and holds
    a BigInt, and is [adfDescription] otherwise. *)
Lemma createIssueDescription_cases (JSON_stringify : value -> string)
  (d : value) :
  createIssueDescription JSON_stringify d
  = if truthy d && String.eqb (typeof d) "object"
       && negb (isValidADF d) && hasBigInt d
    then ThrowTypeError
    else Normal (adfDescription JSON_stringify d).
Proof.
  unfold createIssueDescription, adfDescription, stringifyOrThrow.
  destruct d as [| | b | n | s | elems | props | z]; try reflexivity.
  - simpl. now rewrite !andb_false_r.
  - simpl. now rewrite !andb_false_r.
  - now destruct s.
  - cbn [typeof String.eqb Ascii.eqb Bool.eqb truthy andb].
    change (("object" =? "string")%string) with false.
    change (("object" =? "object")%string) with true. cbn [andb].
    destruct (isValidADF (VArr elems)); [reflexivity|]. cbn [negb].
    now destruct (hasBigInt (VArr elems)).
  - cbn [typeof String.eqb Ascii.eqb Bool.eqb truthy andb].
    change (("object" =? "string")%string) with false.
    change (("object" =? "object")%string) with true. cbn [andb].
    destruct (isValidADF (VObj props)); [reflexivity|]. cbn [negb].
    now destruct (hasBigInt (VObj props)).
  - simpl. now rewrite !andb_false_r.
Qed.

End DescriptionHandling.

(** ** Properties of adf-utils.js and create.js *)

(** C5.  [textToADF] returns a document for every argument.  For an
    argument that is not a string, and for the empty string, the document
    has no content.  For any other string, the text is split at line
    feeds, the lines that are empty after trimming are dropped, and each
    line kept gives one paragraph holding one text node; when no line is
    kept, the document is a single paragraph holding the text as given. *)
Theorem C5_textToADF_paragraph_per_kept_line :
  textToADF VUndefined = document []
  /\ textToADF VNull = document []
  /\ (forall b, textToADF (VBool b) = document [])
  /\ (forall n, textToADF (VNum n) = document [])
  /\ (forall elems, textToADF (VArr elems) = document [])
  /\ (forall props, textToADF (VObj props) = document [])
  /\ (forall n, textToADF (VBigInt n) = document [])
  /\ textToADF (VStr "") = document []
  /\ forall c s,
       let text := String c s in
       let kept :=
         List.filter (fun line => nonEmpty (trim line)) (splitLF text) in
       textToADF (VStr text)
       = document
           (match kept with
            | [] => [paragraph [textNode (VStr text)]]
            | _ :: _ =>
                map (fun line => paragraph [textNode (VStr (trim line))]) kept
            end).
Proof.
  repeat split; try reflexivity.
  - intros b. unfold textToADF. now rewrite orb_true_r.
  - intros n. unfold textToADF. now rewrite orb_true_r.
  - intros n. unfold textToADF. now rewrite orb_true_r.
  - intros c s text kept. apply textToADF_string.
Qed.

(** The description [{count: 1n}] is an object and no valid document, so
    it is stringified, and [JSON.stringify] throws at the BigInt: the
    handling throws, whatever text the host gives to other values. *)
Lemma C6_counterexample_bigint_member :
  (forall JSON_stringify,
      createIssueDescription JSON_stringify (VObj [("count", VBigInt 1)])
      = ThrowTypeError)
  /\ ~ (forall (JSON_stringify : value -> string) (description : value),
          exists doc,
            createIssueDescription JSON_stringify description = Normal doc
            /\ isValidADF doc = true).
Proof.
  split; [reflexivity|].
  intros H.
  destruct (H (fun _ => "{}") (VObj [("count", VBigInt 1)])) as (doc & E & _).
  discriminate E.
Qed.

(** C6 (amended).  In [createIssue], [null] or no description gives the
    document without content, a string goes through [textToADF], a valid
    document is taken as it is, and any other object or array is
    stringified and goes through [textToADF].  The handling throws exactly
    for an object or array that is no valid document and that
    [JSON.stringify] throws on; for every other description, and so for
    every description that [JSON.stringify] serialises, it returns a valid
    document. *)
Theorem C6_description_becomes_a_document_unless_stringify_throws
  (JSON_stringify : value -> string) :
  createIssueDescription JSON_stringify VNull = Normal (document [])
  /\ createIssueDescription JSON_stringify VUndefined = Normal (document [])
  /\ (forall s,
        createIssueDescription JSON_stringify (VStr s)
        = Normal (textToADF (VStr s)))
  /\ (forall d,
        isValidADF d = true ->
        createIssueDescription JSON_stringify d = Normal d)
  /\ (forall props,
        isValidADF (VObj props) = false ->
        hasBigInt (VObj props) = false ->
        createIssueDescription JSON_stringify (VObj props)
        = Normal (textToADF (VStr (JSON_stringify (VObj props)))))
  /\ (forall elems,
        hasBigInt (VArr elems) = false ->
        createIssueDescription JSON_stringify (VArr elems)
        = Normal (textToADF (VStr (JSON_stringify (VArr elems)))))
  /\ (forall b,
        createIssueDescription JSON_stringify (VBool b)
        = Normal (document []))
  /\ (forall n,
        createIssueDescription JSON_stringify (VNum n)
        = Normal (document []))
  /\ (forall n,
        createIssueDescription JSON_stringify (VBigInt n)
        = Normal (document []))
  /\ (forall description,
        createIssueDescription JSON_stringify description = ThrowTypeError
        <-> truthy description = true
            /\ typeof description = "object"
            /\ isValidADF description = false
            /\ hasBigInt description = true)
  /\ (forall description doc,
        createIssueDescription JSON_stringify description = Normal doc ->
        isValidADF doc = true)
  /\ (forall description,
        isValidADF description = true \/ hasBigInt description = false ->
        exists doc,
          createIssueDescription JSON_stringify description = Normal doc
          /\ isValidADF doc = true).
Proof.
  assert (Hvalid : forall d,
             isValidADF d = true ->
             createIssueDescription JSON_stringify d = Normal d).
  { intros d H. rewrite createIssueDescription_cases, H.
    rewrite andb_false_r. simpl. now rewrite adfDescription_valid. }
  assert (Hserial : forall d,
             hasBigInt d = false ->
             createIssueDescription JSON_stringify d
             = Normal (adfDescription JSON_stringify d)).
  { intros d H. rewrite createIssueDescription_cases, H.
    now rewrite andb_false_r. }
  assert (Hnormal : forall d doc,
             createIssueDescription JSON_stringify d = Normal doc ->
             isValidADF doc = true).
  { intros d doc. rewrite createIssueDescription_cases.
    destruct (truthy d && _ && _ && _); [discriminate|].
    intros [= <-]. apply adfDescription_isValid. }
  repeat split; try reflexivity; try assumption.
  - intros props Hinv Hbig. rewrite Hserial by exact Hbig.
    unfold adfDescription. now rewrite Hinv.
  - intros elems Hbig. now rewrite Hserial.
  - intros b. unfold createIssueDescription. simpl.
    now rewrite !andb_false_r.
  - intros n. unfold createIssueDescription. simpl.
    now rewrite !andb_false_r.
  - intros n. unfold createIssueDescription. simpl.
    now rewrite !andb_false_r.
  - rewrite createIssueDescription_cases in H.
    destruct (truthy description) eqn:T; [reflexivity|discriminate H].
  - rewrite createIssueDescription_cases in H.
    destruct (truthy description); [|discriminate H].
    destruct (String.eqb (typeof description) "object") eqn:O;
      [|discriminate H].
    now apply String.eqb_eq.
  - rewrite createIssueDescription_cases in H.
    destruct (isValidADF description); [|reflexivity].
    rewrite !andb_false_r in H. discriminate H.
  - rewrite createIssueDescription_cases in H.
    destruct (hasBigInt description); [reflexivity|].
    rewrite !andb_false_r in H. discriminate H.
  - intros (T & O & V & B). rewrite createIssueDescription_cases.
    apply String.eqb_eq in O. now rewrite T, O, V, B.
  - intros description [H | H].
    + exists description. split; [now apply Hvalid | exact H].
    + exists (adfDescription JSON_stringify description).
      split; [now apply Hserial | apply adfDescription_isValid].
Qed.

Lemma C6_witness_objects :
  createIssueDescription (fun _ => "{}")
    (document [VObj [("type", VStr "rule")]])
  = Normal (document [VObj [("type", VStr "rule")]])
  /\ createIssueDescription (fun _ => "{}") (VObj [])
     = Normal (document [paragraph [textNode (VStr "{}")]]).
Proof.
  destruct (C6_description_becomes_a_document_unless_stringify_throws
              (fun _ => "{}"))
    as (_ & _ & _ & Hvalid & Hobj & _).
  split.
  - apply Hvalid. reflexivity.
  - rewrite Hobj; reflexivity.
Defined.

(** C7.  A value is a valid document exactly when it is an object whose
    type is "doc", whose version is 1 and whose content is an array, and
    every document that a builder function returns is valid.  The two
    builders that call a method of their argument return a document for
    every array (of nodes other than [null] and [undefined], for
    [createFormattedADF]). *)
Theorem C7_builders_return_valid_documents :
  (forall d,
      isValidADF d = true
      <-> exists props content,
            d = VObj props
            /\ member d "type" = VStr "doc"
            /\ member d "version" = VNum 1
            /\ member d "content" = VArr content)
  /\ (forall text, isValidADF (textToADF text) = true)
  /\ (forall textNodes d,
        createFormattedADF textNodes = Normal d -> isValidADF d = true)
  /\ (forall nodes,
        Forall (fun node => isNullish node = false) nodes ->
        exists d, createFormattedADF (VArr nodes) = Normal d)
  /\ (forall items, isValidADF (createBulletListADF items) = true)
  /\ (forall items, isValidADF (createOrderedListADF items) = true)
  /\ (forall headingText level content,
        isValidADF (createHeadingWithContentADF headingText level content)
        = true)
  /\ (forall code language,
        isValidADF (createCodeBlockADF code language) = true)
  /\ (forall text url, isValidADF (createLinkADF text url) = true)
  /\ (forall contentBlocks d,
        combineADFContent contentBlocks = Normal d -> isValidADF d = true)
  /\ (forall blocks, exists d, combineADFContent (VArr blocks) = Normal d).
Proof.
  split; [exact isValidADF_shape|].
  split; [exact textToADF_valid|].
  split.
  { intros textNodes d. unfold createFormattedADF.
    destruct textNodes; try discriminate.
    destruct (mapArray formattedNode elems); simpl; [|discriminate].
    now intros [= <-]. }
  split.
  { intros nodes Hnodes. unfold createFormattedADF.
    assert (H : exists content, mapArray formattedNode nodes = Normal content).
    { induction Hnodes as [|node nodes Hnode _ [content IH]]; simpl.
      - now eexists.
      - unfold formattedNode at 1. rewrite Hnode. simpl. rewrite IH. simpl.
        now eexists. }
    destruct H as [content ->]. simpl. now eexists. }
  split.
  { intros items. unfold createBulletListADF.
    destruct (negb (isArray items) || (length (elements items) =? 0)%nat);
      [apply textToADF_valid | reflexivity]. }
  split.
  { intros items. unfold createOrderedListADF.
    destruct (negb (isArray items) || (length (elements items) =? 0)%nat);
      [apply textToADF_valid | reflexivity]. }
  split; [reflexivity|].
  split; [reflexivity|].
  split; [reflexivity|].
  split.
  { intros contentBlocks d. unfold combineADFContent.
    destruct contentBlocks; try discriminate. now intros [= <-]. }
  intros blocks. unfold combineADFContent. now eexists.
Qed.

Lemma C7_witness_formatted_and_combined :
  isValidADF
    (document
       [paragraph
          [textNode (VStr "plain ");
           VObj [("type", VStr "text"); ("text", VStr "bold");
                 ("marks", VArr [VObj [("type", VStr "strong")]])]]])
  = true
  /\ isValidADF (document [VObj [("type", VStr "rule")]]) = true.
Proof.
  destruct C7_builders_return_valid_documents
    as (_ & _ & Hformatted & _ & _ & _ & _ & _ & _ & Hcombine & _).
  split.
  - apply (Hformatted
             (VArr [VObj [("text", VStr "plain ")];
                    VObj [("text", VStr "bold");
                          ("marks", VArr [VObj [("type", VStr "strong")]])]])).
    reflexivity.
  - apply (Hcombine (VArr [VNull; VObj [("type", VStr "rule")]; VUndefined])).
    reflexivity.
Defined.

(** C8.  The content of the document of [createGitHubIssueADF] is, in this
    order: the paragraph with "Original GitHub Issue: " and the linked url,
    the "Created by" paragraph, the "Created at" paragraph and a rule; the
    labels paragraph when the labels are not empty, the issue type
    paragraph and the priority paragraph when these are present; and, when
    the body has a character other than white space, a second rule and one
    paragraph for each line of the body that is not empty after
    trimming. *)
Theorem C8_createGitHubIssueADF_block_sequence
  (githubUrl author createdAt : string) (body : option string)
  (mappingInfo : MappingInfo.t) :
  createGitHubIssueADF githubUrl author createdAt body mappingInfo
  = document
      ([ paragraph [textNode (VStr "Original GitHub Issue: ");
                    linkNode githubUrl];
         paragraph [textNode (VStr ("Created by: " +:+ author))];
         paragraph [textNode (VStr ("Created at: " +:+ createdAt))];
         rule ]
       ++ match MappingInfo.labels mappingInfo with
          | Some (l :: ls) =>
              [paragraph
                 [emphasised ("GitHub Labels: " +:+ join ", " (l :: ls))]]
          | _ => []
          end
       ++ match MappingInfo.issueType mappingInfo with
          | Some (String c s) =>
              [paragraph
                 [emphasised ("Mapped to Issue Type: " +:+ String c s)]]
          | _ => []
          end
       ++ match MappingInfo.priority mappingInfo with
          | Some (String c s) =>
              [paragraph [emphasised ("Priority: " +:+ String c s)]]
          | _ => []
          end
       ++ match body with
          | Some b =>
              if hasNonWhiteSpace b
              then rule
                   :: map (fun line =>
                             paragraph [textNode (VStr (trim line))])
                          (List.filter (fun line => nonEmpty (trim line))
                                       (splitLF b))
              else []
          | None => []
          end).
Proof. apply createGitHubIssueADF_content. Qed.

(** C9.  Every line kept is emitted trimmed.  When [textToADF] keeps a
    line, and when [createGitHubIssueADF] renders a body, the paragraphs of
    the lines are those of [renderLines]; each of them holds one text node
    whose text is a kept line without its leading and trailing white
    space. *)
Theorem C9_kept_lines_are_emitted_trimmed :
  (forall text,
      retainedLines text <> [] ->
      textToADF (VStr text) = document (renderLines text))
  /\ (forall githubUrl author createdAt b mappingInfo,
        hasNonWhiteSpace b = true ->
        exists before,
          createGitHubIssueADF githubUrl author createdAt (Some b) mappingInfo
          = document (before ++ rule :: renderLines b))
  /\ (forall text block,
        In block (renderLines text) ->
        exists line w1 w2,
          In line (splitLF text)
          /\ block = paragraph [textNode (VStr (trim line))]
          /\ line = w1 +:+ trim line +:+ w2
          /\ allWhiteSpace w1 = true /\ allWhiteSpace w2 = true
          /\ trimmed (trim line) /\ trim line <> "").
Proof.
  split; [|split].
  - intros [|c s] H; [now elim H|].
    rewrite textToADF_string. now destruct (retainedLines (String c s)).
  - intros githubUrl author createdAt b mappingInfo Hb.
    rewrite createGitHubIssueADF_content, Hb.
    eexists. rewrite !app_assoc. reflexivity.
  - exact renderLines_trimmed.
Qed.

Lemma C9_witness_padded_line :
  textToADF (VStr ("  Line 1 " +:+ String "010" "   "))
  = document [paragraph [textNode (VStr "Line 1")]]
  /\ exists line,
       paragraph [textNode (VStr "Line 1")]
       = paragraph [textNode (VStr (trim line))].
Proof.
  destruct C9_kept_lines_are_emitted_trimmed as (Htext & _ & Hblock).
  split.
  - rewrite Htext; [reflexivity | discriminate].
  - destruct (Hblock ("  Line 1 " +:+ String "010" "   ")
                     (paragraph [textNode (VStr "Line 1")]))
      as (line & _ & _ & _ & Hl & _).
    + left. reflexivity.
    + now exists line.
Defined.

(** ** The scenarios of the test scripts *)

(** The production issue of the mapping test suite, with the mapping of
    its label as the suite expects it. *)
Example scenario_production_issue :
  fst (mapGitHubIssueToJiraFields
         {| title := Some "Production system down - REELS not loading";
            body :=
              Some ("Which part of the platform is affected?"
                    +:+ String "010" "REELS"
                    +:+ String "010" ""
                    +:+ String "010" "Urgency / Impact"
                    +:+ String "010"
                          "High - Production system is down or severely impacted.");
            labels := Some [LabelObject "Bug Report"] |}
         (ConfigLoaded
            {| mappings := {[ "Bug Report" := "Bug Report" ]};
               defaultIssueType := "Technical Support" |}))
  = {| Fields.issueType := JString "Bug Report";
       Fields.priority := "Highest";
       Fields.components := ["REELS"];
       Fields.labels := ["Bug Report"];
       Fields.originalLabels := Some [LabelObject "Bug Report"] |}.
Proof. vm_compute. reflexivity. Qed.

(** A tag inside a sentence is no component. *)
Example scenario_tag_in_sentence :
  extractComponents "my REELS thing" = [].
Proof. vm_compute. reflexivity. Qed.

(** Three lines and a blank one give three paragraphs. *)
Example scenario_three_lines :
  textToADF (VStr ("Line 1" +:+ String "010" "Line 2"
                   +:+ String "010" "" +:+ String "010" "Line 3"))
  = document [paragraph [textNode (VStr "Line 1")];
              paragraph [textNode (VStr "Line 2")];
              paragraph [textNode (VStr "Line 3")]].
Proof. vm_compute. reflexivity. Qed.

(** A text of white space only is kept as it is. *)
Example scenario_white_space_only :
  textToADF (VStr "   ") = document [paragraph [textNode (VStr "   ")]].
Proof. vm_compute. reflexivity. Qed.

(** ** Further properties of map-issue-type.js *)

Section ClassifierMore.

Lemma toLowerChar_idem (c : ascii) :
  toLowerChar (toLowerChar c) = toLowerChar c.
Proof.
  assert (G : forallAscii (fun c =>
                Ascii.eqb (toLowerChar (toLowerChar c)) (toLowerChar c))
              = true) by (vm_compute; reflexivity).
  pose proof (forallAscii_spec _ G c) as G'. cbv beta in G'.
  now apply Ascii.eqb_eq.
Qed.

Lemma toLowerCase_idem (s : string) :
  toLowerCase (toLowerCase s) = toLowerCase s.
Proof.
  induction s as [|c s IH]; simpl; [reflexivity|].
  now rewrite toLowerChar_idem, IH.
Qed.

Lemma firstMapped_app (mappings : gmap string string)
  (pre rest : list string) :
  Forall (fun l => isTruthy (getMapping mappings l) = false) pre ->
  firstMapped mappings (pre ++ rest) = firstMapped mappings rest.
Proof.
  induction 1 as [|l pre Hl _ IH]; simpl; [reflexivity|].
  now rewrite Hl.
Qed.

End ClassifierMore.

(** X1.  [mapPriority] does not depend on letter case, nor on the labels:
    lower-casing title and body leaves the priority as it is. *)
Theorem X1_mapPriority_ignores_case (issue : GitHubIssue)
  (otherLabels : option (list LabelEntry)) :
  mapPriority
    {| title := Some (toLowerCase (orEmpty (title issue)));
       body := Some (toLowerCase (orEmpty (body issue)));
       labels := otherLabels |}
  = mapPriority issue.
Proof.
  unfold mapPriority. cbn [title body orEmpty].
  now rewrite !toLowerCase_idem.
Qed.

(** X2.  A body that contains "production down" or
    "high - production system", in any letter case, gives Highest whatever
    the title and the rest of the body say. *)
Theorem X2_production_phrases_give_Highest (issue : GitHubIssue) :
  contains (toLowerCase (orEmpty (body issue))) "production down"
  \/ contains (toLowerCase (orEmpty (body issue))) "high - production system" ->
  mapPriority issue = "Highest".
Proof.
  intros H. unfold mapPriority.
  destruct H as [H | H]; apply includes_spec in H; rewrite H;
    now rewrite ?orb_true_r.
Qed.

Lemma X2_witness_outage :
  mapPriority
    {| title := Some "cosmetic glitch";
       body := Some "PRODUCTION DOWN since 9am";
       labels := None |}
  = "Highest".
Proof.
  apply X2_production_phrases_give_Highest. left.
  exists "", " since 9am". reflexivity.
Defined.

(** X3.  The urgency phrases of the bug form come before the keywords: a
    body that contains "medium - a non-critical feature",
    "low - minor issue" or "cosmetic" never gives High, even when the title
    says "urgent" or "critical". *)
Theorem X3_form_phrases_never_give_High (issue : GitHubIssue) :
  contains (toLowerCase (orEmpty (body issue)))
           "medium - a non-critical feature"
  \/ contains (toLowerCase (orEmpty (body issue))) "low - minor issue"
  \/ contains (toLowerCase (orEmpty (body issue))) "cosmetic" ->
  mapPriority issue <> "High".
Proof.
  intros H. unfold mapPriority.
  destruct (includes _ "high - production system"
            || includes _ "production down"); [discriminate|].
  destruct H as [H | [H | H]]; apply includes_spec in H; rewrite H.
  - discriminate.
  - destruct (includes _ "medium - a non-critical feature"); discriminate.
  - rewrite orb_true_r.
    destruct (includes _ "medium - a non-critical feature"); discriminate.
Qed.

Lemma X3_witness_urgent_cosmetic :
  mapPriority
    {| title := Some "URGENT: critical button colour";
       body := Some "Low - Minor issue or cosmetic bug.";
       labels := None |}
  <> "High".
Proof.
  apply X3_form_phrases_never_give_High. right. left.
  exists "", " or cosmetic bug.". reflexivity.
Defined.

(** X4.  Only the first mapped label counts: labels without a truthy
    lookup before it, and any labels after it, do not change the result. *)
Theorem X4_only_first_mapped_label_counts (pre post : list string)
  (L : string) (config : MappingConfig) :
  Forall (fun l => isTruthy (getMapping (mappings config) l) = false) pre ->
  isTruthy (getMapping (mappings config) L) = true ->
  mapGitHubLabelsToJiraIssueType (pre ++ L :: post) (ConfigLoaded config)
  = mapGitHubLabelsToJiraIssueType [L] (ConfigLoaded config).
Proof.
  intros Hpre HL. unfold mapGitHubLabelsToJiraIssueType.
  rewrite firstMapped_app by exact Hpre. simpl. now rewrite HL.
Qed.

Lemma X4_witness_three_labels :
  let config :=
    {| mappings := {[ "Bug Report" := "Bug" ]} ∪ {[ "Improvement" := "Story" ]};
       defaultIssueType := "Technical Support" |} in
  mapGitHubLabelsToJiraIssueType
    ["Unknown Label"; "Improvement"; "Bug Report"] (ConfigLoaded config)
  = (JString "Story", []).
Proof.
  intros config.
  refine (eq_trans
            (X4_only_first_mapped_label_counts
               ["Unknown Label"] ["Bug Report"] "Improvement" config _ _) _).
  - repeat constructor.
  - vm_compute. reflexivity.
  - vm_compute. reflexivity.
Defined.

(** X5.  With a non-empty default issue type the function never returns an
    empty or undefined issue type, whether the configuration was read or
    not. *)
Theorem X5_issue_type_is_never_empty (githubLabels : list string)
  (read : ConfigRead) :
  match read with
  | ConfigLoaded config => defaultIssueType config <> ""
  | ConfigError _ => True
  end ->
  isTruthy (fst (mapGitHubLabelsToJiraIssueType githubLabels read)) = true.
Proof.
  destruct read as [config | message]; [|reflexivity].
  intros Hd. unfold mapGitHubLabelsToJiraIssueType.
  pose proof (firstMapped_spec (mappings config) githubLabels) as H.
  destruct (firstMapped (mappings config) githubLabels) as [v|]; simpl.
  - now destruct H as (pre & L & post & _ & _ & HL & ->).
  - now destruct (defaultIssueType config).
Qed.

Lemma X5_witness_empty_mapping :
  isTruthy
    (fst (mapGitHubLabelsToJiraIssueType ["Bug Report"]
            (ConfigLoaded {| mappings := {[ "Bug Report" := "" ]};
                             defaultIssueType := "Technical Support" |})))
  = true.
Proof. apply X5_issue_type_is_never_empty. discriminate. Defined.

(** X6.  A label that names a member inherited from [Object.prototype],
    such as "constructor", and that is no key of the mappings is taken as
    mapped: the function returns the inherited member instead of going on
    to the next label or to the default. *)
Theorem X6_inherited_member_is_taken_as_mapping (name : string)
  (rest : list string) (config : MappingConfig) :
  In name objectPrototypeMembers ->
  mappings config !! name = None ->
  mapGitHubLabelsToJiraIssueType (name :: rest) (ConfigLoaded config)
  = (JInherited name, []).
Proof.
  intros Hin Hnone. unfold mapGitHubLabelsToJiraIssueType. simpl.
  unfold getMapping. rewrite Hnone.
  assert (E : existsb (String.eqb name) objectPrototypeMembers = true).
  { apply existsb_exists. exists name. split; [exact Hin|].
    apply String.eqb_refl. }
  now rewrite E.
Qed.

Lemma X6_witness_constructor :
  mapGitHubLabelsToJiraIssueType ["constructor"; "Bug Report"]
    (ConfigLoaded {| mappings := {[ "Bug Report" := "Bug" ]};
                     defaultIssueType := "Technical Support" |})
  = (JInherited "constructor", []).
Proof.
  apply X6_inherited_member_is_taken_as_mapping.
  - left. reflexivity.
  - vm_compute. reflexivity.
Defined.

Section ComponentsMore.

Lemma isWhiteSpace_toLowerChar (c : ascii) :
  isWhiteSpace (toLowerChar c) = isWhiteSpace c.
Proof.
  assert (G : forallAscii (fun c =>
                Bool.eqb (isWhiteSpace (toLowerChar c)) (isWhiteSpace c))
              = true) by (vm_compute; reflexivity).
  pose proof (forallAscii_spec _ G c) as G'. cbv beta in G'.
  now apply eqb_prop.
Qed.

Lemma isLineTerminator_toLowerChar (c : ascii) :
  isLineTerminator (toLowerChar c) = isLineTerminator c.
Proof.
  assert (G : forallAscii (fun c =>
                Bool.eqb (isLineTerminator (toLowerChar c))
                         (isLineTerminator c))
              = true) by (vm_compute; reflexivity).
  pose proof (forallAscii_spec _ G c) as G'. cbv beta in G'.
  now apply eqb_prop.
Qed.

Lemma splitOn_nonempty (sep : ascii -> bool) (s : string) :
  exists piece pieces, splitOn sep s = piece :: pieces.
Proof.
  induction s as [|c s (p & ps & IH)]; simpl; [now eexists _, _|].
  destruct (sep c); [now eexists _, _|]. rewrite IH. now eexists _, _.
Qed.

Lemma splitOn_app (sep : ascii -> bool) (a : string) (c : ascii)
  (b : string) :
  sep c = true ->
  splitOn sep (a +:+ String c b) = splitOn sep a ++ splitOn sep b.
Proof.
  intros Hc. induction a as [|x a IH]; simpl.
  - now rewrite Hc.
  - rewrite IH. destruct (sep x); [reflexivity|].
    now destruct (splitOn_nonempty sep a) as (p & ps & ->).
Qed.

Lemma splitOn_toLowerCase (sep : ascii -> bool) (s : string) :
  (forall c, sep (toLowerChar c) = sep c) ->
  splitOn sep (toLowerCase s) = map toLowerCase (splitOn sep s).
Proof.
  intros Hsep. induction s as [|c s IH]; simpl; [reflexivity|].
  rewrite Hsep, IH. destruct (sep c); [reflexivity|].
  now destruct (splitOn sep s).
Qed.

Lemma trimStart_toLowerCase (s : string) :
  trimStart (toLowerCase s) = toLowerCase (trimStart s).
Proof.
  induction s as [|c s IH]; simpl; [reflexivity|].
  rewrite isWhiteSpace_toLowerChar. now destruct (isWhiteSpace c).
Qed.

Lemma trimEnd_toLowerCase (s : string) :
  trimEnd (toLowerCase s) = toLowerCase (trimEnd s).
Proof.
  induction s as [|c s IH]; simpl; [reflexivity|].
  rewrite IH, isWhiteSpace_toLowerChar.
  destruct (trimEnd s); simpl; [|reflexivity].
  now destruct (isWhiteSpace c).
Qed.

Lemma trim_toLowerCase (s : string) :
  trim (toLowerCase s) = toLowerCase (trim s).
Proof. unfold trim. now rewrite trimStart_toLowerCase, trimEnd_toLowerCase. Qed.

Lemma lineIsTag_toLowerCase (tag line : string) :
  lineIsTag tag (toLowerCase line) = lineIsTag tag line.
Proof.
  unfold lineIsTag. now rewrite trim_toLowerCase, toLowerCase_idem.
Qed.

Lemma existsb_lineIsTag_lower (tag : string) (pieces : list string) :
  existsb (lineIsTag tag) (map toLowerCase pieces)
  = existsb (lineIsTag tag) pieces.
Proof.
  induction pieces as [|piece pieces IH]; [reflexivity|].
  cbn [map existsb]. now rewrite lineIsTag_toLowerCase, IH.
Qed.

Lemma In_componentsOf (tag body : string) :
  In tag (componentsOf body)
  <-> In tag platformAreas /\ existsb (lineIsTag tag) (lines body) = true.
Proof. unfold componentsOf. apply filter_In. Qed.

End ComponentsMore.

(** X7.  The components are always a sub-sequence of the vocabulary
    REELS, ALPHA, TRINITY, AI HUB: in that order whatever the order of the
    lines of the body, and without repetition however often a tag
    occurs. *)
Theorem X7_components_are_a_subsequence_of_the_vocabulary (body : string) :
  sublist (extractComponents body) platformAreas
  /\ NoDup (extractComponents body).
Proof.
  rewrite extractComponents_componentsOf. unfold componentsOf, platformAreas.
  cbn [List.filter].
  destruct (existsb (lineIsTag "REELS") (lines body)),
           (existsb (lineIsTag "ALPHA") (lines body)),
           (existsb (lineIsTag "TRINITY") (lines body)),
           (existsb (lineIsTag "AI HUB") (lines body));
    (split;
     [ repeat constructor
     | apply NoDup_ListNoDup; repeat constructor; simpl;
       intuition discriminate ]).
Qed.

(** X8.  The scan works line by line: the components of two texts joined
    by a line terminator are those of the one together with those of the
    other. *)
Theorem X8_components_of_joined_texts (a b : string) (c : ascii)
  (tag : string) :
  isLineTerminator c = true ->
  (In tag (extractComponents (a +:+ String c b))
   <-> In tag (extractComponents a) \/ In tag (extractComponents b)).
Proof.
  intros Hc. rewrite !extractComponents_componentsOf, !In_componentsOf.
  unfold lines. rewrite (splitOn_app _ a c b Hc), existsb_app, orb_true_iff.
  tauto.
Qed.

Lemma X8_witness_two_forms :
  In "ALPHA"
     (extractComponents ("REELS" +:+ String "013" (String "010" "alpha"))).
Proof.
  apply (X8_components_of_joined_texts "REELS" (String "010" "alpha") "013").
  - reflexivity.
  - right. vm_compute. tauto.
Defined.

(** X9.  The scan does not depend on letter case: a body and its
    lower-case form have the same components. *)
Theorem X9_components_ignore_case (body : string) :
  extractComponents (toLowerCase body) = extractComponents body.
Proof.
  rewrite !extractComponents_componentsOf. unfold componentsOf.
  apply filter_ext. intros tag. unfold lines.
  rewrite splitOn_toLowerCase by exact isLineTerminator_toLowerChar.
  apply existsb_lineIsTag_lower.
Qed.

(** X10.  [validateJiraIssueType] accepts every issue type when the list of
    valid types is empty, and otherwise exactly the members of the list; it
    warns exactly when it rejects. *)
Theorem X10_validateJiraIssueType_membership (issueType : string)
  (validIssueTypes : list string) :
  (fst (validateJiraIssueType issueType validIssueTypes) = true
   <-> validIssueTypes = [] \/ In issueType validIssueTypes)
  /\ (snd (validateJiraIssueType issueType validIssueTypes) = []
      <-> fst (validateJiraIssueType issueType validIssueTypes) = true)
  /\ (fst (validateJiraIssueType issueType validIssueTypes) = false ->
      snd (validateJiraIssueType issueType validIssueTypes)
      = [WarnIssueTypeMayNotExist issueType validIssueTypes]).
Proof.
  unfold validateJiraIssueType.
  destruct validIssueTypes as [|t ts];
    [simpl; repeat split; try discriminate; auto|].
  cbn [length Nat.eqb].
  assert (E : existsb (String.eqb issueType) (t :: ts) = true
              <-> In issueType (t :: ts)).
  { rewrite existsb_exists. split.
    - intros (x & Hin & Hx). apply String.eqb_eq in Hx. now subst.
    - intros Hin. exists issueType. split; [exact Hin|].
      apply String.eqb_refl. }
  destruct (existsb (String.eqb issueType) (t :: ts)); simpl.
  - repeat split; try discriminate; auto. intros _. right. now apply E.
  - repeat split; try discriminate; auto.
    intros [H | H]; [discriminate | now apply E].
Qed.

Lemma X10_witness_unknown_type :
  snd (validateJiraIssueType "Epic" ["Bug"; "Task"])
  = [WarnIssueTypeMayNotExist "Epic" ["Bug"; "Task"]].
Proof.
  apply (X10_validateJiraIssueType_membership "Epic" ["Bug"; "Task"]).
  reflexivity.
Defined.

(** ** Further properties of adf-utils.js *)

Section DocumentsMore.

Lemma isLF_whiteSpace (c : ascii) : isLF c = true -> isWhiteSpace c = true.
Proof.
  intros H.
  assert (G : forallAscii (fun c => implb (isLF c) (isWhiteSpace c)) = true)
    by (vm_compute; reflexivity).
  pose proof (forallAscii_spec _ G c) as G'. cbv beta in G'.
  now rewrite H in G'.
Qed.

Lemma allWhiteSpace_splitLF (s : string) :
  allWhiteSpace s = forallb allWhiteSpace (splitLF s).
Proof.
  unfold splitLF. induction s as [|c s IH]; [reflexivity|].
  rewrite allWhiteSpace_cons. simpl splitOn.
  destruct (isLF c) eqn:Hc.
  - cbn [forallb]. now rewrite (isLF_whiteSpace c Hc), <- IH.
  - destruct (splitOn_nonempty isLF s) as (p & ps & E).
    rewrite E in IH |- *. cbn [forallb] in IH |- *.
    now rewrite allWhiteSpace_cons, IH, andb_assoc.
Qed.

Lemma retainedLines_nil_iff (s : string) :
  retainedLines s = [] <-> allWhiteSpace s = true.
Proof.
  rewrite allWhiteSpace_splitLF. unfold retainedLines.
  induction (splitLF s) as [|l ls IH]; simpl; [easy|].
  rewrite nonEmpty_trim, hasNonWhiteSpace_allWhiteSpace.
  destruct (allWhiteSpace l); simpl; [exact IH | easy].
Qed.

Lemma hasNonWhiteSpace_retained (s : string) :
  hasNonWhiteSpace s = true -> retainedLines s <> [].
Proof.
  rewrite hasNonWhiteSpace_allWhiteSpace. intros H E.
  apply retainedLines_nil_iff in E. now rewrite E in H.
Qed.

Lemma hasNonWhiteSpace_nonEmpty (s : string) :
  hasNonWhiteSpace s = true -> exists c r, s = String c r.
Proof. destruct s; [discriminate | now eexists _, _]. Qed.

(** [textToADF] on a text with a character other than white space. *)
Lemma textToADF_renderLines (s : string) :
  hasNonWhiteSpace s = true ->
  textToADF (VStr s) = document (renderLines s).
Proof.
  intros H. pose proof (hasNonWhiteSpace_retained s H) as Hne.
  destruct (hasNonWhiteSpace_nonEmpty s H) as (c & r & ->).
  rewrite textToADF_string. now destruct (retainedLines (String c r)).
Qed.

Lemma renderLines_nonempty (s : string) :
  hasNonWhiteSpace s = true -> renderLines s <> [].
Proof.
  intros H E. apply (hasNonWhiteSpace_retained s H).
  unfold renderLines in E. now destruct (retainedLines s).
Qed.

Lemma retainedLines_app (a b : string) (c : ascii) :
  isLF c = true ->
  retainedLines (a +:+ String c b) = retainedLines a ++ retainedLines b.
Proof.
  intros Hc. unfold retainedLines, splitLF.
  now rewrite (splitOn_app _ a c b Hc), List.filter_app.
Qed.

Lemma renderLines_app (a b : string) (c : ascii) :
  isLF c = true ->
  renderLines (a +:+ String c b) = renderLines a ++ renderLines b.
Proof.
  intros Hc. unfold renderLines.
  now rewrite (retainedLines_app a b c Hc), map_app.
Qed.

Lemma hasNonWhiteSpace_app (a b : string) :
  hasNonWhiteSpace (a +:+ b) = hasNonWhiteSpace a || hasNonWhiteSpace b.
Proof.
  rewrite !hasNonWhiteSpace_allWhiteSpace, allWhiteSpace_app.
  apply negb_andb.
Qed.

Lemma hasNonWhiteSpace_cons (c : ascii) (s : string) :
  hasNonWhiteSpace (String c s) = negb (isWhiteSpace c) || hasNonWhiteSpace s.
Proof. reflexivity. Qed.

Lemma trim_app_ws (l w : string) :
  allWhiteSpace w = true -> trim (l +:+ w) = trim l.
Proof.
  intros Hw. destruct (trim_decomp l) as (w1 & w2 & Hl & H1 & H2).
  rewrite Hl at 1. rewrite !append_assoc.
  apply trim_unique; [exact H1 | | apply trim_trimmed].
  now rewrite allWhiteSpace_app, H2, Hw.
Qed.

Lemma splitLF_snoc (a : string) (c : ascii) :
  isLF c = false ->
  exists init last,
    splitLF a = init ++ [last]
    /\ splitLF (a +:+ String c "") = init ++ [last +:+ String c ""].
Proof.
  intros Hc. unfold splitLF. induction a as [|x a (init & last & E1 & E2)].
  - exists [], "". simpl. now rewrite Hc.
  - simpl. rewrite E1, E2. destruct (isLF x).
    + now exists ("" :: init), last.
    + destruct init as [|i init]; simpl.
      * now exists [], (String x last).
      * now exists (String x i :: init), last.
Qed.

Lemma renderLines_trailing_ws (a : string) (c : ascii) :
  isWhiteSpace c = true -> isLF c = false ->
  renderLines (a +:+ String c "") = renderLines a.
Proof.
  intros Hw Hc. destruct (splitLF_snoc a c Hc) as (init & last & E1 & E2).
  unfold renderLines, retainedLines. rewrite E1, E2, !List.filter_app, !map_app.
  f_equal. cbn [List.filter].
  assert (T : trim (last +:+ String c "") = trim last)
    by (apply trim_app_ws; now rewrite allWhiteSpace_cons, Hw).
  rewrite T. destruct (nonEmpty (trim last)); [|reflexivity].
  cbn [map]. now rewrite T.
Qed.

End DocumentsMore.

(** X11.  A non-empty string never gives a document without content: when
    it has a character other than white space the document holds the
    paragraphs of its lines, at least one; when it is white space only the
    document holds one paragraph with the string as given. *)
Theorem X11_textToADF_never_drops_a_text (c : ascii) (s : string) :
  let text := String c s in
  contentOf (textToADF (VStr text)) <> []
  /\ (hasNonWhiteSpace text = true ->
      textToADF (VStr text) = document (renderLines text))
  /\ (hasNonWhiteSpace text = false ->
      textToADF (VStr text) = document [paragraph [textNode (VStr text)]]).
Proof.
  intros text.
  assert (H1 : hasNonWhiteSpace text = true ->
               textToADF (VStr text) = document (renderLines text))
    by apply textToADF_renderLines.
  assert (H2 : hasNonWhiteSpace text = false ->
               textToADF (VStr text)
               = document [paragraph [textNode (VStr text)]]).
  { intros H. rewrite hasNonWhiteSpace_allWhiteSpace in H.
    apply negb_false_iff, retainedLines_nil_iff in H.
    unfold text in *. now rewrite textToADF_string, H. }
  split; [|now split].
  destruct (hasNonWhiteSpace text) eqn:E.
  - rewrite H1 by reflexivity. now apply renderLines_nonempty.
  - now rewrite H2.
Qed.

Lemma X11_witness_blank_lines :
  textToADF (VStr (String "010" " a"))
  = document [paragraph [textNode (VStr "a")]]
  /\ textToADF (VStr (String "010" " "))
     = document [paragraph [textNode (VStr (String "010" " "))]].
Proof.
  split.
  - apply (X11_textToADF_never_drops_a_text "010" " a"). reflexivity.
  - apply (X11_textToADF_never_drops_a_text "010" " "). reflexivity.
Defined.

(** X12.  [textToADF] works line by line: for two texts that each have a
    character other than white space, the document of the texts joined by
    a line feed holds the blocks of the first followed by the blocks of the
    second. *)
Theorem X12_textToADF_of_joined_texts (a b : string) :
  hasNonWhiteSpace a = true -> hasNonWhiteSpace b = true ->
  contentOf (textToADF (VStr (a +:+ String "010" b)))
  = contentOf (textToADF (VStr a)) ++ contentOf (textToADF (VStr b)).
Proof.
  intros Ha Hb.
  rewrite (textToADF_renderLines a Ha), (textToADF_renderLines b Hb).
  rewrite textToADF_renderLines
    by (now rewrite hasNonWhiteSpace_app, Ha).
  unfold contentOf. simpl. now apply renderLines_app.
Qed.

Lemma X12_witness_two_texts :
  contentOf (textToADF (VStr ("one" +:+ String "010" "two")))
  = [paragraph [textNode (VStr "one")]; paragraph [textNode (VStr "two")]].
Proof.
  rewrite (X12_textToADF_of_joined_texts "one" "two"); reflexivity.
Defined.

(** X13.  White space before a line feed is immaterial, so a text with
    CR LF line ends gives the same document as with LF line ends: for a
    text with a character other than white space, a white-space character
    other than the line feed put before a line feed changes nothing. *)
Theorem X13_textToADF_ignores_space_before_line_feed (a b : string)
  (c : ascii) :
  isWhiteSpace c = true -> isLF c = false ->
  hasNonWhiteSpace (a +:+ b) = true ->
  textToADF (VStr (a +:+ String c (String "010" b)))
  = textToADF (VStr (a +:+ String "010" b)).
Proof.
  intros Hw Hc Hab. rewrite hasNonWhiteSpace_app in Hab.
  assert (E : a +:+ String c (String "010" b)
              = (a +:+ String c "") +:+ String "010" b)
    by now rewrite append_assoc.
  assert (H1 : hasNonWhiteSpace (a +:+ String c (String "010" b)) = true).
  { rewrite hasNonWhiteSpace_app, !hasNonWhiteSpace_cons.
    destruct (hasNonWhiteSpace a), (hasNonWhiteSpace b);
      try discriminate; now rewrite ?orb_true_r. }
  assert (H2 : hasNonWhiteSpace (a +:+ String "010" b) = true).
  { rewrite hasNonWhiteSpace_app, !hasNonWhiteSpace_cons.
    destruct (hasNonWhiteSpace a), (hasNonWhiteSpace b);
      try discriminate; now rewrite ?orb_true_r. }
  rewrite (textToADF_renderLines _ H1), (textToADF_renderLines _ H2).
  rewrite E, (renderLines_app (a +:+ String c "") b "010" eq_refl).
  rewrite (renderLines_app a b "010" eq_refl).
  now rewrite renderLines_trailing_ws.
Qed.

Lemma X13_witness_crlf :
  textToADF (VStr ("Line 1" +:+ String "013" (String "010" "Line 2")))
  = textToADF (VStr ("Line 1" +:+ String "010" "Line 2")).
Proof.
  apply X13_textToADF_ignores_space_before_line_feed; reflexivity.
Defined.

Section BuildersMore.

Lemma filter_all {A : Type} (f : A -> bool) (l : list A) :
  Forall (fun x => f x = true) l -> List.filter f l = l.
Proof.
  induction 1 as [|x l Hx _ IH]; simpl; [reflexivity|].
  now rewrite Hx, IH.
Qed.

Lemma combineADFContent_all (blocks : list value) :
  Forall (fun block => isNullish block = false) blocks ->
  combineADFContent (VArr blocks) = Normal (document blocks).
Proof.
  intros H. unfold combineADFContent. rewrite filter_all; [reflexivity|].
  eapply Forall_impl; [exact H|]. intros block Hb. cbv beta in Hb |- *.
  now rewrite Hb.
Qed.

Lemma renderLines_blocks (s : string) :
  Forall (fun block => isNullish block = false) (renderLines s).
Proof.
  unfold renderLines. induction (retainedLines s); simpl; now constructor.
Qed.

Lemma textToADF_blocks (text : value) :
  Forall (fun block => isNullish block = false) (contentOf (textToADF text)).
Proof.
  destruct text as [| | b | n | [|c s] | elems | props | z];
    try (now constructor).
  - unfold textToADF. rewrite orb_true_r. constructor.
  - unfold textToADF. rewrite orb_true_r. constructor.
  - rewrite textToADF_string.
    destruct (retainedLines (String c s)) eqn:E.
    + repeat constructor.
    + apply renderLines_blocks.
  - unfold textToADF. rewrite orb_true_r. constructor.
Qed.

Lemma createBulletListADF_blocks (items : value) :
  Forall (fun block => isNullish block = false)
         (contentOf (createBulletListADF items)).
Proof.
  unfold createBulletListADF.
  destruct (negb (isArray items) || (length (elements items) =? 0)%nat);
    repeat constructor.
Qed.

Lemma createHeadingWithContentADF_blocks (headingText : value)
  (level : option Z) (content : value) :
  Forall (fun block => isNullish block = false)
         (contentOf (createHeadingWithContentADF headingText level content)).
Proof.
  unfold createHeadingWithContentADF.
  destruct (truthy match content with VUndefined => VStr "" | c => c end);
    repeat constructor.
Qed.

Lemma mapArray_formattedNode (nodes : list value) :
  match mapArray formattedNode nodes with
  | Normal texts =>
      existsb isNullish nodes = false
      /\ Forall2
           (fun node text =>
              member text "type" = VStr "text"
              /\ member text "text" = member node "text"
              /\ member text "marks"
                 = if truthy (member node "marks") then member node "marks"
                   else VUndefined)
           nodes texts
  | ThrowTypeError => existsb isNullish nodes = true
  end.
Proof.
  induction nodes as [|node nodes IH]; simpl; [now split|].
  unfold formattedNode at 1. destruct (isNullish node) eqn:Hn; simpl;
    [reflexivity|].
  destruct (mapArray formattedNode nodes) as [texts|]; simpl; [|exact IH].
  destruct IH as [IH1 IH2]. split; [exact IH1|].
  constructor; [|exact IH2].
  destruct (truthy (member node "marks")); now repeat split.
Qed.

End BuildersMore.

(** X14.  For a level that is an integer, the level of the heading built
    by [createHeadingWithContentADF] lies between 1 and 6: an integer in
    that range is kept, a smaller one becomes 1, a larger one becomes 6;
    a level left out is 1.  (Levels that are no integers are not among the
    numbers of this model.) *)
Theorem X14_heading_level_is_clamped (headingText content : value) (n : Z) :
  headingLevel (createHeadingWithContentADF headingText None content)
  = VNum 1
  /\ exists l,
       headingLevel (createHeadingWithContentADF headingText (Some n) content)
       = VNum l
       /\ (1 <= l <= 6)%Z
       /\ ((1 <= n <= 6)%Z -> l = n)
       /\ ((n < 1)%Z -> l = 1%Z)
       /\ ((6 < n)%Z -> l = 6%Z).
Proof.
  split.
  - unfold createHeadingWithContentADF.
    destruct (truthy match content with VUndefined => VStr "" | c => c end);
      reflexivity.
  - exists (Z.max 1 (Z.min 6 n)). split; [|lia].
    unfold createHeadingWithContentADF.
    destruct (truthy match content with VUndefined => VStr "" | c => c end);
      reflexivity.
Qed.

Lemma X14_witness_level_nine :
  headingLevel (createHeadingWithContentADF (VStr "Title") (Some 9%Z) VUndefined)
  = VNum 6.
Proof.
  destruct (X14_heading_level_is_clamped (VStr "Title") VUndefined 9)
    as (_ & l & Hl & _ & _ & _ & H6).
  rewrite Hl. f_equal. apply H6. lia.
Defined.

(** X15.  [createFormattedADF] throws exactly when its argument is no
    array or holds [null] or [undefined]; otherwise it returns one
    paragraph with one text node per node given, in order, each with the
    text of its node and with the marks of its node when these are truthy
    and without marks otherwise. *)
Theorem X15_createFormattedADF_nodes (textNodes : value) :
  (createFormattedADF textNodes = ThrowTypeError
   <-> isArray textNodes = false
       \/ existsb isNullish (elements textNodes) = true)
  /\ forall d,
       createFormattedADF textNodes = Normal d ->
       exists texts,
         d = document [paragraph texts]
         /\ Forall2
              (fun node text =>
                 member text "type" = VStr "text"
                 /\ member text "text" = member node "text"
                 /\ member text "marks"
                    = if truthy (member node "marks")
                      then member node "marks" else VUndefined)
              (elements textNodes) texts.
Proof.
  unfold createFormattedADF.
  destruct textNodes as [| | b | n | s | nodes | props | z];
    try (split; [split; [now left | reflexivity] | discriminate]).
  pose proof (mapArray_formattedNode nodes) as H. cbn [elements isArray].
  destruct (mapArray formattedNode nodes) as [texts|]; simpl.
  - destruct H as [H1 H2]. split.
    + split; [discriminate|]. intros [H | H]; [discriminate | congruence].
    + intros d [= <-]. now exists texts.
  - split; [|discriminate]. split; [now right | reflexivity].
Qed.

Lemma X15_witness_null_node :
  createFormattedADF
    (VArr [VObj [("text", VStr "bold");
                 ("marks", VArr [VObj [("type", VStr "strong")]])];
           VNull])
  = ThrowTypeError.
Proof.
  apply X15_createFormattedADF_nodes. right. reflexivity.
Defined.

(** X16.  [combineADFContent] returns the document of the blocks that are
    neither [null] nor [undefined]: each of them as often as it was given
    and in the order given, and nothing else.  Blocks among which there is
    no [null] and no [undefined] are all kept, and combining the blocks
    kept once more gives the same document. *)
Theorem X16_combineADFContent_drops_only_null (blocks : list value) :
  let kept := List.filter (fun block => negb (isNullish block)) blocks in
  combineADFContent (VArr blocks) = Normal (document kept)
  /\ sublist kept blocks
  /\ (forall block,
        In block kept <-> In block blocks /\ isNullish block = false)
  /\ (Forall (fun block => isNullish block = false) blocks ->
      kept = blocks)
  /\ combineADFContent (VArr kept) = Normal (document kept).
Proof.
  intros kept. split; [reflexivity|]. split; [|split; [|split]].
  - unfold kept. induction blocks as [|b blocks IH]; simpl; [constructor|].
    destruct (negb (isNullish b)); now constructor.
  - intros block. unfold kept. rewrite filter_In, negb_true_iff. reflexivity.
  - intros H. unfold kept. apply filter_all.
    eapply Forall_impl; [exact H|]. intros block Hb. cbv beta in Hb |- *.
    now rewrite Hb.
  - apply combineADFContent_all. apply List.Forall_forall.
    intros block Hin. apply filter_In in Hin as [_ Hb].
    now apply negb_true_iff.
Qed.

Lemma X16_witness_null_between :
  combineADFContent (VArr [rule; rule])
  = Normal (document [rule; rule])
  /\ ~ In VNull
         (List.filter (fun block => negb (isNullish block))
                      [VNull; rule; VUndefined; rule]).
Proof.
  split.
  - destruct (X16_combineADFContent_drops_only_null [rule; rule])
      as (H & _ & _ & Hall & _).
    rewrite Hall in H by (repeat constructor). exact H.
  - destruct (X16_combineADFContent_drops_only_null
                [VNull; rule; VUndefined; rule]) as (_ & _ & Hin & _).
    intros HN. apply Hin in HN as [_ HN]. discriminate HN.
Defined.

(** X17.  Combining the blocks of documents built by
    [createHeadingWithContentADF], [textToADF], [createBulletListADF] and
    [createCodeBlockADF] loses no block: the document holds all of them,
    in order. *)
Theorem X17_combine_keeps_all_builder_blocks (headingText : value)
  (level : option Z) (content text items code language : value) :
  let blocks :=
    contentOf (createHeadingWithContentADF headingText level content)
    ++ contentOf (textToADF text)
    ++ contentOf (createBulletListADF items)
    ++ contentOf (createCodeBlockADF code language) in
  combineADFContent (VArr blocks) = Normal (document blocks).
Proof.
  intros blocks. apply combineADFContent_all. unfold blocks.
  repeat apply Forall_app_2.
  - apply createHeadingWithContentADF_blocks.
  - apply textToADF_blocks.
  - apply createBulletListADF_blocks.
  - repeat constructor.
Qed.

(** ** Further properties of create.js *)

Section CreateMore.






End CreateMore.


(** X19.  [createGitHubIssueADF] renders a body that has a character other
    than white space as [textToADF] does, after a rule; a body of white
    space only is treated like no body at all, so that, unlike
    [textToADF], nothing of it is kept. *)
Theorem X19_issue_body_is_rendered_like_textToADF
  (githubUrl author createdAt b : string) (mappingInfo : MappingInfo.t) :
  (hasNonWhiteSpace b = true ->
   exists before,
     contentOf
       (createGitHubIssueADF githubUrl author createdAt (Some b) mappingInfo)
     = before ++ rule :: contentOf (textToADF (VStr b)))
  /\ (hasNonWhiteSpace b = false ->
      createGitHubIssueADF githubUrl author createdAt (Some b) mappingInfo
      = createGitHubIssueADF githubUrl author createdAt None mappingInfo).
Proof.
  split; intros Hb.
  - rewrite createGitHubIssueADF_content, Hb, (textToADF_renderLines b Hb).
    eexists. unfold contentOf. cbn [document member lookupProp String.eqb
      Ascii.eqb Bool.eqb elements].
    rewrite !app_assoc. reflexivity.
  - now rewrite !createGitHubIssueADF_content, Hb.
Qed.

Lemma X19_witness_bodies :
  (exists before,
      contentOf
        (createGitHubIssueADF "https://github.com/o/r/issues/1" "octocat"
           "2023-12-01T10:30:00Z" (Some " Steps ") MappingInfo.empty)
      = before ++ [rule; paragraph [textNode (VStr "Steps")]])
  /\ createGitHubIssueADF "https://github.com/o/r/issues/1" "octocat"
       "2023-12-01T10:30:00Z" (Some "   ") MappingInfo.empty
     = createGitHubIssueADF "https://github.com/o/r/issues/1" "octocat"
         "2023-12-01T10:30:00Z" None MappingInfo.empty.
Proof.
  split.
  - apply (X19_issue_body_is_rendered_like_textToADF _ _ _ " Steps ").
    reflexivity.
  - apply (X19_issue_body_is_rendered_like_textToADF _ _ _ "   ").
    reflexivity.
Defined.






(** X23.  A configuration that cannot be read costs the issue type only:
    priority, components and labels of [mapGitHubIssueToJiraFields] are the
    same for every outcome of reading the configuration, and the issue type
    is "Task" when reading failed. *)
Theorem X23_config_affects_the_issue_type_only (githubIssue : GitHubIssue)
  (read : ConfigRead) (message : string) :
  let mapping := fst (mapGitHubIssueToJiraFields githubIssue read) in
  let fallback :=
    fst (mapGitHubIssueToJiraFields githubIssue (ConfigError message)) in
  Fields.priority mapping = Fields.priority fallback
  /\ Fields.components mapping = Fields.components fallback
  /\ Fields.labels mapping = Fields.labels fallback
  /\ Fields.issueType fallback = JString "Task".
Proof.
  intros mapping fallback. unfold mapping, fallback.
  unfold mapGitHubIssueToJiraFields.
  destruct (mapGitHubLabelsToJiraIssueType _ read). simpl. easy.
Qed.

(** X24.  The list builders keep the items: for a non-empty array they
    return one list block, "bulletList" or "orderedList", with one list
    item per element, in order, each holding one paragraph with the element
    as text; for an empty array and for any other argument they return the
    document without content. *)
Theorem X24_list_builders_keep_the_items (items : value) :
  (isArray items = false \/ elements items = [] ->
   createBulletListADF items = document []
   /\ createOrderedListADF items = document [])
  /\ (isArray items = true -> elements items <> [] ->
      holdsItems (createBulletListADF items) "bulletList" (elements items)
      /\ holdsItems (createOrderedListADF items) "orderedList"
           (elements items)).
Proof.
  split.
  - intros H. unfold createBulletListADF, createOrderedListADF.
    destruct items as [| | b | n | s | [|x elems] | props | z];
      try (now split).
    destruct H as [H | H]; discriminate H.
  - intros Harr Hne. destruct items as [| | b | n | s | elems | props | z];
      try discriminate Harr.
    destruct elems as [|x elems]; [now elim Hne|].
    assert (F : forall l,
               Forall2
                 (fun item entry =>
                    member entry "type" = VStr "listItem"
                    /\ elements (member entry "content")
                       = [paragraph [textNode item]])
                 l (map listItem l)).
    { induction l as [|y l IH]; simpl; constructor; auto. }
    split; eexists; (split; [reflexivity|]); (split; [reflexivity|]);
      exact (F (x :: elems)).
Qed.

Lemma X24_witness_two_items :
  holdsItems (createOrderedListADF (VArr [VStr "first"; VStr "second"]))
             "orderedList" [VStr "first"; VStr "second"].
Proof.
  destruct (X24_list_builders_keep_the_items
              (VArr [VStr "first"; VStr "second"])) as [_ H].
  apply H; [reflexivity | discriminate].
Defined.

(** X25.  Against the earlier revision of [createGitHubIssueADF], the
    revision with [mappingInfo], called without mapping information, gives
    the same document when the body is absent or white space only, and
    otherwise the same blocks with one more rule between the four leading
    blocks and the paragraphs of the body. *)
Theorem X25_revisions_of_createGitHubIssueADF
  (githubUrl author createdAt : string) (body : option string) :
  let earlier :=
    CreateEarlier.createGitHubIssueADF githubUrl author createdAt body in
  let later :=
    createGitHubIssueADF githubUrl author createdAt body MappingInfo.empty in
  (bodyPresent body = false -> later = earlier)
  /\ (bodyPresent body = true ->
      contentOf later
      = firstn 4 (contentOf earlier) ++ rule :: skipn 4 (contentOf earlier)).
Proof.
  intros earlier later. unfold earlier, later.
  unfold CreateEarlier.createGitHubIssueADF.
  rewrite createGitHubIssueADF_content.
  destruct body as [b|].
  - rewrite bodyPresent_hasNonWhiteSpace, retained_filter, forEach_push_map.
    destruct (hasNonWhiteSpace b); split; intros H; try discriminate H;
      reflexivity.
  - split; intros H; [reflexivity | discriminate H].
Qed.

Lemma X25_witness_one_line_body :
  contentOf
    (createGitHubIssueADF "https://github.com/o/r/issues/1" "octocat"
       "2023-12-01T10:30:00Z" (Some "Text") MappingInfo.empty)
  = firstn 4
      (contentOf
         (CreateEarlier.createGitHubIssueADF "https://github.com/o/r/issues/1"
            "octocat" "2023-12-01T10:30:00Z" (Some "Text")))
    ++ [rule; paragraph [textNode (VStr "Text")]].
Proof.
  refine (eq_trans
            (proj2 (X25_revisions_of_createGitHubIssueADF
                      "https://github.com/o/r/issues/1" "octocat"
                      "2023-12-01T10:30:00Z" (Some "Text")) _) _);
    reflexivity.
Defined.
